(** * Prompt families of [gpt_researcher/FAR10_promptfamily.py]

    A shallow embedding of the prompt-building module: the base
    [PromptFamily], its [FARPart10PromptFamily] specialisation, the two
    registries and the factory helpers.

    Conventions of the embedding.
    - A Python [str] is a Rocq [string] holding its UTF-8 bytes; the
      non-ASCII characters of the source templates (no-break spaces,
      bullets, arrows, typographic quotes) appear as their byte sequences.
      UTF-8 is self-synchronising, so one text occurs inside another as
      code points exactly when it does as bytes.
    - A Python [int] is a [Z]; an optional keyword argument is an [option]
      whose [None] stands for "not passed".
    - [str.upper] depends on the Unicode case tables of the interpreter and
      is a parameter ([str_upper]) of the development.
    - The clock read by [date.today()] is an explicit argument.
    - [warnings.warn] appends its message to a list returned next to the
      result; warning filters are not modelled.
    - The definitions of the two families give the text an operation
      builds; [run] gives the outcome of a call, with the errors raised
      on the way by integer formatting and by the JSON encoder.
    - The digit limit of integer to string conversion and the depth at
      which the JSON encoder exhausts the interpreter's stack are
      parameters ([int_max_str_digits], [json_max_nesting]).
    - Memory is unbounded: [MemoryError] is not modelled.  Type
      annotations are not evaluated; the module is taken as loaded. *)

From Stdlib Require Import ZArith Ascii String List Lia Bool DecimalString.
From stdpp Require Import gmap strings list fin_maps.

Local Open Scope Z_scope.

(** ** Strings as Python sees them *)

Module PyStr.

(** The two characters a Rocq literal cannot hold conveniently. *)
Definition nl : string := String "010"%char EmptyString.
Definition dq : string := String "034"%char EmptyString.

(** Truth value of a string: only the empty string is false. *)
Definition str_truthy (s : string) : bool :=
  match s with
  | EmptyString => false
  | String _ _ => true
  end.

(** [sep.join(items)]. *)
Fixpoint join (sep : string) (items : list string) : string :=
  match items with
  | [] => EmptyString
  | [x] => x
  | x :: rest => x +:+ sep +:+ join sep rest
  end.

(** [str(n)] for an integer: decimal digits, a leading minus sign when
    negative. *)
Definition str_of_int (n : Z) : string :=
  NilZero.string_of_int (Z.to_int n).

(** [sub in s]. *)
Definition contains (sub s : string) : Prop :=
  exists pre post, s = pre +:+ sub +:+ post.

(** Executable counterpart of [contains]. *)
Fixpoint prefixb (p s : string) : bool :=
  match p, s with
  | EmptyString, _ => true
  | String a p', String b s' => Ascii.eqb a b && prefixb p' s'
  | String _ _, EmptyString => false
  end.

Fixpoint containsb (sub s : string) : bool :=
  prefixb sub s ||
  match s with
  | EmptyString => false
  | String _ s' => containsb sub s'
  end.

(** [bigram_free a b s]: the character [a] is never immediately followed by
    [b] in [s], and [s] does not end in [a].  Texts with this property can
    be concatenated without ever spelling the pair [a b]. *)
Fixpoint bigram_free (a b : ascii) (s : string) : bool :=
  match s with
  | EmptyString => true
  | String c s' =>
      match s' with
      | EmptyString => negb (Ascii.eqb c a)
      | String d _ => negb (Ascii.eqb c a && Ascii.eqb d b) && bigram_free a b s'
      end
  end.

(** Every character of [s] satisfies [p]. *)
Fixpoint all_chars (p : ascii -> bool) (s : string) : bool :=
  match s with
  | EmptyString => true
  | String c s' => p c && all_chars p s'
  end.

(** The characters of a rendered integer or ISO date. *)
Definition digit_or_dash (c : ascii) : bool :=
  containsb (String c EmptyString) "0123456789-".

(** ASCII-only upper-casing: what [str.upper] does on ASCII text.  Used to
    instantiate the [str_upper] parameter on concrete inputs. *)
Definition ascii_upper_char (c : ascii) : ascii :=
  let n := nat_of_ascii c in
  if (97 <=? n)%nat && (n <=? 122)%nat then ascii_of_nat (n - 32) else c.

Fixpoint ascii_upper (s : string) : string :=
  match s with
  | EmptyString => EmptyString
  | String c s' => String (ascii_upper_char c) (ascii_upper s')
  end.

End PyStr.

Import PyStr.

(** ** Python values *)

(** The values a metadata mapping holds in the embedding: [None], booleans,
    integers and strings. *)
Inductive scalar : Type :=
| SNone
| SBool (b : bool)
| SInt (n : Z)
| SStr (s : string).

(** [format(v, "")], which an f-string applies to an interpolated value. *)
Definition py_format (v : scalar) : string :=
  match v with
  | SNone => "None"
  | SBool true => "True"
  | SBool false => "False"
  | SInt n => str_of_int n
  | SStr s => s
  end.

(** [range(n)]: empty for [n <= 0]. *)
Definition py_range (n : Z) : list Z :=
  map Z.of_nat (seq 0 (Z.to_nat n)).

(** [l[:stop]] with Python's slice rules: a negative [stop] counts from the
    end, and the bound is clamped to [0 .. len(l)]. *)
Definition slice_to {A} (l : list A) (stop : Z) : list A :=
  let len := Z.of_nat (length l) in
  let stop' := if stop <? 0 then Z.max 0 (stop + len) else Z.min stop len in
  firstn (Z.to_nat stop') l.

(** [enumerate(l)]. *)
Fixpoint enumerate_from {A} (i : nat) (l : list A) : list (nat * A) :=
  match l with
  | [] => []
  | x :: rest => (i, x) :: enumerate_from (S i) rest
  end.

Definition enumerate {A} (l : list A) : list (nat * A) := enumerate_from 0 l.

(** ** Interpreter services and errors *)

(** What the embedding takes from the Python runtime without modelling it:
    [str.upper] (Unicode case mapping); the JSON encoder's string
    escaping [json.encoder.encode_basestring_ascii], which returns the
    escaped text between double quotes; the limit
    [sys.get_int_max_str_digits()] on the decimal digits of an integer
    turned into text (4300 by default, 0 for no limit); and the deepest
    nesting of containers the JSON encoder reaches before the interpreter
    raises [RecursionError], which depends on the recursion limit and on
    the depth of the call stack. *)
Class PyRuntime : Type := {
  str_upper : string -> string;
  encode_basestring_ascii : string -> string;
  int_max_str_digits : nat;
  json_max_nesting : nat
}.

(** A runtime that is exact on printable ASCII text free of quotes and
    backslashes, with the default digit limit and a nesting bound well
    inside the default recursion limit; concrete evaluations below stay
    within such text and such bounds. *)
Definition ascii_runtime : PyRuntime := {|
  str_upper := ascii_upper;
  encode_basestring_ascii := fun s => dq +:+ s +:+ dq;
  int_max_str_digits := 4300;
  json_max_nesting := 100
|}.

Inductive exn : Type :=
| TypeError (msg : string)
| AttributeError (msg : string)
| ValueError (msg : string)
| RecursionError (msg : string).

Inductive result (A : Type) : Type :=
| Ok (a : A)
| Raise (e : exn).

Arguments Ok {A} a.
Arguments Raise {A} e.

Definition bind {A B} (r : result A) (k : A -> result B) : result B :=
  match r with
  | Ok a => k a
  | Raise e => Raise e
  end.

Notation "'let?' x := r 'in' k" := (bind r (fun x => k))
  (at level 10, x name, r at level 100, k at level 200).

(** Runs [f] over the items in order and stops at the first one that
    raises, as a loop over the items does. *)
Section Traverse.
Context {A B : Type} (f : A -> result B).

Fixpoint traverse (l : list A) : result (list B) :=
  match l with
  | [] => Ok []
  | x :: rest =>
      let? y := f x in
      let? ys := traverse rest in
      Ok (y :: ys)
  end.

End Traverse.

(** ** Integers turned into text *)

Section IntegerText.
Context `{PyRuntime}.

(** [str(n)], [repr(n)] and an f-string field succeed when the limit is
    off or [n] has at most [int_max_str_digits] decimal digits, that is
    when [abs(n) < 10 ** int_max_str_digits]. *)
Definition int_fits (n : Z) : bool :=
  (int_max_str_digits =? 0)%nat
  || (Z.abs n <? 10 ^ Z.of_nat int_max_str_digits).

Definition int_too_long : exn :=
  ValueError ("Exceeds the limit (" +:+
              str_of_int (Z.of_nat int_max_str_digits) +:+
              " digits) for integer string conversion; use sys.set_int_max_str_digits() to increase the limit").

(** An integer formatted by an f-string or by [int.__repr__]. *)
Definition format_int (n : Z) : result string :=
  if int_fits n then Ok (str_of_int n) else Raise int_too_long.



End IntegerText.

#[local] Set Warnings "-register-all".

(** A float as the JSON encoder sees it: not a number, an infinity, or a
    finite value given by its [float.__repr__]. *)
Inductive pyfloat : Type :=
| FNaN
| FInfinity
| FNegInfinity
| FFinite (repr : string).

(** A dictionary key: a string, an integer, a boolean, [None], a float, or
    a hashable object of another type, of which the type name is kept. *)
Inductive pykey : Type :=
| KStr (s : string)
| KInt (n : Z)
| KBool (b : bool)
| KNone
| KFloat (f : pyfloat)
| KOther (type_name : string).

(** Values reachable through [Any], as a traversal from the root meets
    them: scalars, floats, lists, tuples, dictionaries (entries in
    insertion order), a reference back to a container the traversal is
    inside of ([PyCircular]), and any other object, of which only the type
    name is kept. *)
Inductive pyval : Type :=
| PyAtom (v : scalar)
| PyFloat (f : pyfloat)
| PyList (items : list pyval)
| PyTuple (items : list pyval)
| PyMapping (items : list (pykey * pyval))
| PyObject (type_name : string)
| PyCircular.

(** A dictionary all of whose keys are strings, [Dict[str, Any]]. *)
Definition PyDict (items : list (string * pyval)) : pyval :=
  PyMapping (map (fun kv => (KStr (fst kv), snd kv)) items).

(** ** [json.dumps(obj, indent=2)] *)

Module Json.

Fixpoint spaces (n : nat) : string :=
  match n with
  | O => EmptyString
  | S k => String " "%char (spaces k)
  end.

(** ['\n' + _indent * _current_indent_level] with [_indent = ' ' * 2]. *)
Definition newline_indent (level : nat) : string :=
  nl +:+ spaces (2 * level).

Definition not_serializable (type_name : string) : exn :=
  TypeError ("Object of type " +:+ type_name +:+ " is not JSON serializable").

Definition bad_key (type_name : string) : exn :=
  TypeError ("keys must be str, int, float, bool or None, not " +:+ type_name).

Definition circular_reference : exn :=
  ValueError "Circular reference detected".

Definition too_deep : exn :=
  RecursionError "maximum recursion depth exceeded while calling a Python object".

(** The text of a container: [open close] when it is empty, otherwise
    its chunks one per line, indented one level more than the brackets. *)
Definition enclose (open close : string) (level : nat) (chunks : list string)
  : string :=
  match chunks with
  | [] => open +:+ close
  | _ :: _ =>
      open +:+ newline_indent (S level) +:+
      join ("," +:+ newline_indent (S level)) chunks +:+
      newline_indent level +:+ close
  end.

Section Encoder.
Context `{PyRuntime}.

(** [_floatstr] with [allow_nan] left at its default. *)
Definition floatstr (f : pyfloat) : string :=
  match f with
  | FNaN => "NaN"
  | FInfinity => "Infinity"
  | FNegInfinity => "-Infinity"
  | FFinite repr => repr
  end.

Definition encode_scalar (v : scalar) : result string :=
  match v with
  | SNone => Ok "null"
  | SBool true => Ok "true"
  | SBool false => Ok "false"
  | SInt n => format_int n
  | SStr s => Ok (encode_basestring_ascii s)
  end.

(** A key is turned into a string, then escaped like one; a key of
    another type raises, [skipkeys] being off. *)
Definition encode_key (k : pykey) : result string :=
  match k with
  | KStr s => Ok (encode_basestring_ascii s)
  | KFloat f => Ok (encode_basestring_ascii (floatstr f))
  | KBool true => Ok (encode_basestring_ascii "true")
  | KBool false => Ok (encode_basestring_ascii "false")
  | KNone => Ok (encode_basestring_ascii "null")
  | KInt n => let? s := format_int n in Ok (encode_basestring_ascii s)
  | KOther type_name => Raise (bad_key type_name)
  end.

(** [_iterencode] of [json.encoder], its chunks concatenated.  With an
    indent the item separator is [","] and the key separator [": "].  A
    container nested deeper than the interpreter allows raises
    [RecursionError] when the encoder enters it; a container met again
    inside itself raises [ValueError] once entered; an object the encoder
    does not know goes to [default], which raises [TypeError]. *)
Fixpoint iterencode (level : nat) (o : pyval) {struct o} : result string :=
  match o with
  | PyAtom v => encode_scalar v
  | PyFloat f => Ok (floatstr f)
  | PyList items | PyTuple items =>
      if (json_max_nesting <? level)%nat then Raise too_deep
      else
        let? cs := traverse (iterencode (S level)) items in
        Ok (enclose "[" "]" level cs)
  | PyMapping items =>
      if (json_max_nesting <? level)%nat then Raise too_deep
      else
        let? cs :=
          traverse
            (fun kv =>
               let? k := encode_key (fst kv) in
               let? c := iterencode (S level) (snd kv) in
               Ok (k +:+ ": " +:+ c))
            items in
        Ok (enclose "{" "}" level cs)
  | PyObject type_name => Raise (not_serializable type_name)
  | PyCircular =>
      if (json_max_nesting <? level)%nat then Raise too_deep
      else Raise circular_reference
  end.

Definition dumps (o : pyval) : result string := iterencode 0 o.

(** What stands in the way of encoding a value, listed in the order the
    encoder meets it. *)
Definition int_problems (n : Z) : list exn :=
  if int_fits n then [] else [int_too_long].

Definition key_problems (k : pykey) : list exn :=
  match k with
  | KInt n => int_problems n
  | KOther type_name => [bad_key type_name]
  | _ => []
  end.

Definition depth_problems (level : nat) : list exn :=
  if (json_max_nesting <? level)%nat then [too_deep] else [].

Fixpoint problems (level : nat) (o : pyval) {struct o} : list exn :=
  match o with
  | PyAtom (SInt n) => int_problems n
  | PyAtom _ | PyFloat _ => []
  | PyList items | PyTuple items =>
      depth_problems level ++ concat (map (problems (S level)) items)
  | PyMapping items =>
      depth_problems level
      ++ concat (map (fun kv => key_problems (fst kv)
                                ++ problems (S level) (snd kv)) items)
  | PyObject type_name => [not_serializable type_name]
  | PyCircular => depth_problems level ++ [circular_reference]
  end.

(** Nothing stands in the way of encoding the value. *)
Definition serializable (o : pyval) : bool :=
  match problems 0 o with
  | [] => true
  | _ :: _ => false
  end.

End Encoder.

End Json.

(** ** Calendar dates *)

(** [datetime.date]; [str] of a date is its ISO form, [%04d-%02d-%02d]. *)
Record date : Type := mkDate { year : N; month : N; day : N }.

Fixpoint zeros (n : nat) : string :=
  match n with
  | O => EmptyString
  | S k => String "0"%char (zeros k)
  end.

Definition zero_padded (width : nat) (n : N) : string :=
  let digits := NilZero.string_of_uint (N.to_uint n) in
  zeros (width - String.length digits) +:+ digits.

Definition date_str (d : date) : string :=
  zero_padded 4 (year d) +:+ "-" +:+ zero_padded 2 (month d) +:+ "-" +:+
  zero_padded 2 (day d).

(** ** Documents *)

(** langchain's [Document]: a metadata mapping and the page text. *)
Record Document : Type := mkDocument {
  metadata : gmap string scalar;
  page_content : string
}.

(** [d.metadata.get(key)]: [None] when the key is absent. *)
Definition metadata_get (d : Document) (key : string) : scalar :=
  default SNone (metadata d !! key).

(** The type of [tools_info] and of [context]: [List[Dict[str, Any]]]. *)
Abbreviation dict_list := (list (list (string * pyval))).

(** ** The base family *)

Module PromptFamily.

(** The f-string of [pretty_print_docs] for one document. *)
Definition doc_block (d : Document) : string :=
  "Source: " +:+ py_format (metadata_get d "source") +:+ nl +:+ "Title: " +:+
  py_format (metadata_get d "title") +:+ nl +:+ "Content: " +:+ page_content d.

(** The guard [top_n is None or i < top_n] of the generator expression. *)
Definition keeps (top_n : option Z) (i : nat) : bool :=
  match top_n with
  | None => true
  | Some n => Z.of_nat i <? n
  end.

(** The items the generator expression yields, in order. *)
Definition doc_blocks (docs : list Document) (top_n : option Z) : list string :=
  map (fun p => doc_block (snd p))
      (List.filter (fun p => keeps top_n (fst p)) (enumerate docs)).

Definition pretty_print_docs (docs : list Document) (top_n : option Z) : string :=
  join nl (doc_blocks docs top_n).

(** Defaults of the keyword parameters. *)
Definition default_max_iterations : Z := 3.
Definition default_report_format : string := "apa".
Definition default_total_words : Z := 1000.
Definition default_tone : option string := None.
Definition default_language : string := "english".

(** [f"{parent_query} - {question}" if parent_query else question]. *)
Definition task (question parent_query : string) : string :=
  if str_truthy parent_query
  then parent_query +:+ " - " +:+ question
  else question.

(** The list comprehension over [range(max_iterations)]. *)
Definition example_items (max_iterations : Z) : list string :=
  map (fun i => dq +:+ "query " +:+ str_of_int (i + 1) +:+ dq)
      (py_range max_iterations).

Definition generate_search_queries_prompt
  (question parent_query report_type : string)
  (max_iterations : option Z) (context : option dict_list) : string :=
  let max_iterations := default default_max_iterations max_iterations in
  let task := task question parent_query in
  let dynamic_example := join ", " (example_items max_iterations) in
  "Write " +:+ str_of_int max_iterations +:+
  " web search queries to learn about: " +:+ dq +:+ task +:+ dq +:+ "." +:+ nl +:+
  "Return a Python list → [" +:+ dynamic_example +:+ "] only.".

(** [f"Write in a {tone} tone." if tone else ""]. *)
Definition tone_clause (tone : option string) : string :=
  match tone with
  | Some t => if str_truthy t then "Write in a " +:+ t +:+ " tone." else EmptyString
  | None => EmptyString
  end.

Definition generate_report_prompt `{PyRuntime}
  (question context report_source : string)
  (report_format : option string) (total_words : option Z)
  (tone : option (option string)) (language : option string) : string :=
  let report_format := default default_report_format report_format in
  let total_words := default default_total_words total_words in
  let tone := default default_tone tone in
  let language := default default_language language in
  let tone_clause := tone_clause tone in
  "Information gathered: " +:+ dq +:+ context +:+ dq +:+ nl +:+ "---" +:+ nl +:+
  "Using that information, draft a " +:+ str_of_int total_words +:+
  "+ word report answering: " +:+ dq +:+ question +:+ dq +:+ "." +:+ nl +:+
  "• Use markdown + " +:+ str_upper report_format +:+ " citations." +:+ nl +:+
  "• " +:+ tone_clause +:+ nl +:+ "• Language: " +:+ language +:+ "." +:+ nl.

End PromptFamily.

(** ** The FAR Part 10 family *)

Module FARPart10PromptFamily.

Definition _PRIMARY_SOURCES : list string :=
  [ "GSA eLibrary";
    "GSA Advantage";
    "USAspending.gov";
    "SBA Dynamic Small Business Search (DSBS)";
    "Federal Procurement Data System (FPDS)" ].

Definition default_max_iterations : Z := 3.
Definition default_max_tools : Z := 3.
Definition default_report_format : string := "apa".
Definition default_total_words : Z := 800.
Definition default_tone : option string := Some "objective".
Definition default_language : string := "english".

Definition task (question parent_query : string) : string :=
  if str_truthy parent_query
  then parent_query +:+ " - " +:+ question
  else question.

(** The list comprehension over [_PRIMARY_SOURCES[:max_iterations]]. *)
Definition example_items (task : string) (max_iterations : Z) : list string :=
  map (fun s => dq +:+ s +:+ " " +:+ task +:+ dq)
      (slice_to _PRIMARY_SOURCES max_iterations).

Definition generate_search_queries_prompt
  (question parent_query report_type : string)
  (max_iterations : option Z) (context : option dict_list) : string :=
  let max_iterations := default default_max_iterations max_iterations in
  let task := task question parent_query in
  let gov_hint := join ", " _PRIMARY_SOURCES in
  let dynamic_example := join ", " (example_items task max_iterations) in
  "You are performing FAR Part 10 market research.  Generate up to " +:+
  str_of_int max_iterations +:+
  " highly‑targeted “site:” or keyword queries that will surface contractor information from these primary systems first: " +:+
  gov_hint +:+ ".  " +:+ nl +:+ "Task: " +:+ dq +:+ task +:+ dq +:+
  ". Return ONLY a Python list, e.g. [" +:+ dynamic_example +:+ "].".

Definition far_lang : string :=
  "When selecting tools, prefer those that query authoritative government acquisition data sets (GSA, FPDS, USAspending, SBA DSBS) before generic web search utilities.".

Definition generate_mcp_tool_selection_prompt `{PyRuntime}
  (query : string) (tools_info : dict_list) (max_tools : option Z)
  : result string :=
  let max_tools := default default_max_tools max_tools in
  let? tools_json := Json.dumps (PyList (map PyDict tools_info)) in
  Ok ("You are a FAR Part 10 market‑research assistant.  " +:+ far_lang +:+ nl +:+
      nl +:+ "RESEARCH QUERY: " +:+ dq +:+ query +:+ dq +:+ nl +:+ nl +:+
      "AVAILABLE TOOLS:" +:+ nl +:+ tools_json +:+ nl +:+ nl +:+ "Select EXACTLY " +:+
      str_of_int max_tools +:+
      " tools best suited to gather competitive sourcing information.  Return the JSON object described below.").

Definition tone_clause (tone : option string) : string :=
  match tone with
  | Some t => if str_truthy t then "Write in a " +:+ t +:+ " tone." else EmptyString
  | None => EmptyString
  end.

(** The text appended when [report_source == "web"]. *)
Definition contract_numbers_directive : string :=
  "List contract numbers & links from each cited system at the end.".

Definition source_clause (report_source : string) : string :=
  if String.eqb report_source "web" then contract_numbers_directive
  else EmptyString.

(** [today] is the value of [date.today()] at the call. *)
Definition generate_report_prompt `{PyRuntime} (today : date)
  (question context report_source : string)
  (report_format : option string) (total_words : option Z)
  (tone : option (option string)) (language : option string) : string :=
  let report_format := default default_report_format report_format in
  let total_words := default default_total_words total_words in
  let tone := default default_tone tone in
  let language := default default_language language in
  let tone_clause := tone_clause tone in
  let source_clause := source_clause report_source in
  "Information collected: " +:+ nl +:+ dq +:+ context +:+ dq +:+ nl +:+ "---" +:+
  nl +:+ "Draft a concise FAR Part 10 market research report (≥" +:+
  str_of_int total_words +:+ " words) addressing: " +:+ dq +:+ question +:+ dq +:+
  "." +:+ nl +:+ "Required elements:" +:+ nl +:+
  "1. Potential sources and their socio‑economic status (e.g., Small, 8(a), HUBZone)." +:+
  nl +:+
  "2. Contract vehicles (GSA schedules, BPAs, IDIQs) where the requirement could be placed." +:+
  nl +:+ "3. Recent relevant contract awards with pricing data." +:+ nl +:+
  "4. Assessment of competition & capability." +:+ nl +:+
  "5. Recommendation (adequate competition? set‑aside feasible?)." +:+ nl +:+
  "• Use markdown + " +:+ str_upper report_format +:+ " citations." +:+ nl +:+
  "• " +:+ tone_clause +:+ "  • " +:+ source_clause +:+ nl +:+ "• Date: " +:+
  date_str today +:+ ".  Language: " +:+ language +:+ ".".

End FARPart10PromptFamily.

(** ** Classes, instances and attribute lookup *)

Inductive class_id : Type :=
| PromptFamily_class
| FARPart10PromptFamily_class.

(** The function objects created by the [def]s of the two class bodies. *)
Inductive function_id : Type :=
| fn_init
| fn_pretty_print_docs
| fn_base_search_queries
| fn_base_report
| fn_far_search_queries
| fn_far_tool_selection
| fn_far_report.

(** An entry of a class namespace. *)
Inductive class_member : Type :=
| Method (f : function_id)
| StaticMethod (f : function_id)
| ClassData (v : list string).

Definition class_dict (c : class_id) : gmap string class_member :=
  match c with
  | PromptFamily_class =>
      {[ "__init__" := Method fn_init;
         "pretty_print_docs" := StaticMethod fn_pretty_print_docs;
         "generate_search_queries_prompt" := StaticMethod fn_base_search_queries;
         "generate_report_prompt" := StaticMethod fn_base_report ]}
  | FARPart10PromptFamily_class =>
      {[ "_PRIMARY_SOURCES" := ClassData FARPart10PromptFamily._PRIMARY_SOURCES;
         "generate_search_queries_prompt" := StaticMethod fn_far_search_queries;
         "generate_mcp_tool_selection_prompt" := StaticMethod fn_far_tool_selection;
         "generate_report_prompt" := StaticMethod fn_far_report ]}
  end.

(** Method resolution order: [FARPart10PromptFamily(PromptFamily)]. *)
Definition mro (c : class_id) : list class_id :=
  match c with
  | PromptFamily_class => [PromptFamily_class]
  | FARPart10PromptFamily_class =>
      [FARPart10PromptFamily_class; PromptFamily_class]
  end.

Fixpoint lookup_mro (classes : list class_id) (name : string)
  : option class_member :=
  match classes with
  | [] => None
  | c :: rest =>
      match class_dict c !! name with
      | Some m => Some m
      | None => lookup_mro rest name
      end
  end.

Definition class_name (c : class_id) : string :=
  match c with
  | PromptFamily_class => "PromptFamily"
  | FARPart10PromptFamily_class => "FARPart10PromptFamily"
  end.

(** The signature [PROMPT_GENERATOR] of a report generator called as
    [f(question, context, report_source, report_format=..., total_words=...,
    tone=..., language=...)]. *)
Abbreviation PROMPT_GENERATOR :=
  (string -> string -> string ->
   option string -> option Z -> option (option string) -> option string ->
   string).

(** The report generator a function object is, when it is one. *)
Definition as_report_generator `{PyRuntime} (today : date) (f : function_id)
  : option PROMPT_GENERATOR :=
  match f with
  | fn_base_report => Some PromptFamily.generate_report_prompt
  | fn_far_report => Some (FARPart10PromptFamily.generate_report_prompt today)
  | _ => None
  end.

Section Registry.
Context {Config : Type}.

(** An instance: its class and the [cfg] stored by [__init__]. *)
Record family_instance : Type := mkFamily {
  class_of : class_id;
  cfg : option Config
}.

(** What [getattr] returns. *)
Inductive attribute : Type :=
| AttrCfg (c : option Config)
| AttrFunction (f : function_id)
| AttrBoundMethod (f : function_id) (self : family_instance)
| AttrList (v : list string).

(** [getattr(obj, name)] over the instance dictionary, then the classes of
    the resolution order.  Attributes inherited from [object] are not
    modelled. *)
Definition getattr (obj : family_instance) (name : string) : result attribute :=
  if String.eqb name "cfg" then Ok (AttrCfg (cfg obj))
  else
    match lookup_mro (mro (class_of obj)) name with
    | Some (Method f) => Ok (AttrBoundMethod f obj)
    | Some (StaticMethod f) => Ok (AttrFunction f)
    | Some (ClassData v) => Ok (AttrList v)
    | None =>
        Raise (AttributeError ("'" +:+ class_name (class_of obj) +:+
                               "' object has no attribute '" +:+ name +:+ "'"))
    end.

Definition report_type_mapping : gmap string string :=
  {[ "ResearchReport" := "generate_report_prompt" ]}.

Definition get_prompt_by_report_type (report_type : string)
  (prompt_family : family_instance) : result attribute :=
  let method_name :=
    default "generate_report_prompt" (report_type_mapping !! report_type) in
  getattr prompt_family method_name.

Definition prompt_family_mapping : gmap string class_id :=
  {[ "Default" := PromptFamily_class;
     "FARPart10" := FARPart10PromptFamily_class ]}.

(** The message passed to [warnings.warn]. *)
Definition unknown_family_warning (name : string) : string :=
  "Unknown prompt family '" +:+ name +:+ "', using Default.".

(** Returns the instance together with the warnings issued, in order. *)
Definition get_prompt_family (name : string) (config : option Config)
  : family_instance * list string :=
  let cls := default PromptFamily_class (prompt_family_mapping !! name) in
  let warned :=
    match prompt_family_mapping !! name with
    | None => [unknown_family_warning name]
    | Some _ => []
    end in
  (mkFamily cls config, warned).

(** [prompt_family.generate_report_prompt(...)]: attribute lookup, then the
    text the function found builds. *)
Definition call_generate_report_prompt `{PyRuntime} (today : date)
  (prompt_family : family_instance)
  (question context report_source : string)
  (report_format : option string) (total_words : option Z)
  (tone : option (option string)) (language : option string)
  : result string :=
  let? a := getattr prompt_family "generate_report_prompt" in
  match a with
  | AttrFunction f =>
      match as_report_generator today f with
      | Some g =>
          Ok (g question context report_source
                report_format total_words tone language)
      | None => Raise (TypeError "not a report generator")
      end
  | _ => Raise (TypeError "object is not callable")
  end.

End Registry.

Arguments family_instance Config : clear implicits.
Arguments attribute Config : clear implicits.

(** ** The operations as one interface *)




(** [tools_info] can be encoded: no value foreign to the encoder, no key
    of a foreign type, no container inside itself, no integer over the
    digit limit, no nesting beyond what the interpreter allows. *)
Definition tools_serializable `{PyRuntime} (tools_info : dict_list) : bool :=
  Json.serializable (PyList (map PyDict tools_info)).




(** ** Notions the properties are stated with *)

(** The five numbered lines of the FAR report template: sources and their
    socio-economic status, contract vehicles, recent awards, assessment of
    competition, recommendation. *)
Definition required_elements : list string :=
  [ "1. Potential sources and their socio‑economic status (e.g., Small, 8(a), HUBZone).";
    "2. Contract vehicles (GSA schedules, BPAs, IDIQs) where the requirement could be placed.";
    "3. Recent relevant contract awards with pricing data.";
    "4. Assessment of competition & capability.";
    "5. Recommendation (adequate competition? set‑aside feasible?)." ].

(** The fixed opening words of a tone directive, [Write in a ... tone.]. *)
Definition tone_directive_opening : string := "Write in a".

(** The caller-supplied texts interpolated by the base report prompt when
    no tone clause is produced. *)
Definition base_report_texts `{PyRuntime}
  (question context : string) (report_format language : option string)
  : list string :=
  [ context; question;
    str_upper (default PromptFamily.default_report_format report_format);
    default PromptFamily.default_language language ].

(** The caller-supplied texts interpolated by the FAR report prompt. *)
Definition far_report_texts `{PyRuntime}
  (question context : string) (report_format : option string)
  (tone : option (option string)) (language : option string) : list string :=
  [ context; question;
    str_upper (default FARPart10PromptFamily.default_report_format report_format);
    default EmptyString (default FARPart10PromptFamily.default_tone tone);
    default FARPart10PromptFamily.default_language language ].

(** [s] ends with [suffix]; [s] starts with [prefix]. *)
Definition ends_with (suffix s : string) : Prop :=
  exists before, s = before +:+ suffix.

Definition starts_with (prefix s : string) : Prop :=
  exists rest, s = prefix +:+ rest.

(** The contract-numbers directive less its final period. *)
Definition directive_less_period : string :=
  "List contract numbers & links from each cited system at the end".

(** The ways of cutting [d] into two non-empty parts. *)
Fixpoint splits (d : string) : list (string * string) :=
  match d with
  | EmptyString => []
  | String c rest =>
      match rest with
      | EmptyString => []
      | String _ _ => [(String c EmptyString, rest)]
      end
      ++ map (fun p => (String c (fst p), snd p)) (splits rest)
  end.

(** The cuts of [d] whose second part can run into a text that starts
    with [t]: one of the two is the beginning of the other. *)
Definition joins (d t : string) : list (string * string) :=
  List.filter (fun p => prefixb (snd p) t || prefixb t (snd p)) (splits d).

(** A result that is a value when no problem is listed and otherwise
    raises the first problem listed. *)
Definition first_problem {B} (problems : list exn) (r : result B) : Prop :=
  match r with
  | Ok _ => problems = []
  | Raise e => exists rest, problems = e :: rest
  end.

(** The block count [min(top_n or len(documents), len(documents))], with
    Python's [or]: a [top_n] of [None] or [0] selects the length. *)
Definition claimed_block_count (docs : list Document) (top_n : option Z) : Z :=
  let len := Z.of_nat (length docs) in
  let top_n_or_len :=
    match top_n with
    | None => len
    | Some n => if n =? 0 then len else n
    end in
  Z.min top_n_or_len len.

(** The number of documents the generator expression keeps. *)
Definition shown_count (docs : list Document) (top_n : option Z) : nat :=
  match top_n with
  | None => length docs
  | Some n => Z.to_nat (Z.min (Z.max n 0) (Z.of_nat (length docs)))
  end.

(** Concrete inputs used in evaluations. *)
Definition sample_date : date := mkDate 2026 11 4.

Definition sample_doc : Document :=
  mkDocument {[ "title" := SStr "GSA schedule" ]} "body".

Definition bare_doc : Document := mkDocument ∅ "body".

Definition sample_tools : dict_list :=
  [ [ ("name", PyAtom (SStr "gsa_elibrary"));
      ("tags", PyList [PyAtom (SStr "gsa"); PyAtom (SInt 1)]) ] ].

(** Descriptors with a float, a tuple and a dictionary keyed by
    integers. *)
Definition rich_tools : dict_list :=
  [ [ ("name", PyAtom (SStr "usaspending"));
      ("weight", PyFloat (FFinite "0.75"));
      ("domains", PyTuple [PyAtom (SStr "gsa.gov"); PyAtom (SStr "sba.gov")]);
      ("limits", PyMapping [(KInt 1, PyAtom (SInt 10)); (KNone, PyAtom SNone)]) ] ].


(** The entry of the base example list at index [i], counted from 0. *)
Definition base_example (i : nat) : string :=
  dq +:+ "query " +:+ str_of_int (Z.of_nat i + 1) +:+ dq.

(** * Properties *)

(** ** Facts about strings *)

Section StringFacts.

Lemma append_cons (c : ascii) (s t : string) :
  String c s +:+ t = String c (s +:+ t).
Proof. reflexivity. Qed.

Lemma append_nil_l (s : string) : EmptyString +:+ s = s.
Proof. reflexivity. Qed.

Lemma append_assoc (s t u : string) : (s +:+ t) +:+ u = s +:+ t +:+ u.
Proof.
  induction s as [|c s IH]; [reflexivity|].
  rewrite !append_cons. now rewrite IH.
Qed.

Lemma append_nil_r (s : string) : s +:+ EmptyString = s.
Proof.
  induction s as [|c s IH]; [reflexivity|].
  rewrite append_cons. now rewrite IH.
Qed.

Lemma contains_refl (s : string) : contains s s.
Proof.
  exists EmptyString, EmptyString.
  now rewrite append_nil_l, append_nil_r.
Qed.

Lemma contains_prefix (x t : string) : contains x (x +:+ t).
Proof. now exists EmptyString, t. Qed.

Lemma contains_app_l (x s t : string) : contains x s -> contains x (s +:+ t).
Proof.
  intros (pre & post & ->). exists pre, (post +:+ t).
  now rewrite !append_assoc.
Qed.

Lemma contains_app_r (x s t : string) : contains x t -> contains x (s +:+ t).
Proof.
  intros (pre & post & ->). exists (s +:+ pre), post.
  now rewrite !append_assoc.
Qed.

Lemma prefixb_sound (p s : string) :
  prefixb p s = true -> exists post, s = p +:+ post.
Proof.
  revert s. induction p as [|a p IH]; intros s Hp.
  - now exists s.
  - destruct s as [|b s]; [discriminate|]. simpl in Hp.
    apply andb_true_iff in Hp as [Hab Hp].
    apply Ascii.eqb_eq in Hab as ->.
    destruct (IH _ Hp) as [post ->]. now exists post.
Qed.

Lemma containsb_sound (sub s : string) :
  containsb sub s = true -> contains sub s.
Proof.
  induction s as [|c s IH]; simpl; intros Hc.
  - apply orb_true_iff in Hc as [Hp|]; [|discriminate].
    destruct (prefixb_sound _ _ Hp) as [post ->]. apply contains_prefix.
  - apply orb_true_iff in Hc as [Hp|Hc].
    + destruct (prefixb_sound _ _ Hp) as [post ->]. apply contains_prefix.
    + apply (contains_app_r sub (String c EmptyString) s), IH, Hc.
Qed.

Lemma bigram_free_cons2 (a b c d : ascii) (s : string) :
  bigram_free a b (String c (String d s)) =
  negb (Ascii.eqb c a && Ascii.eqb d b) && bigram_free a b (String d s).
Proof. reflexivity. Qed.

Lemma bigram_free_app (a b : ascii) (s t : string) :
  bigram_free a b s = true -> bigram_free a b t = true ->
  bigram_free a b (s +:+ t) = true.
Proof.
  intros Hs Ht. induction s as [|c s IH]; [exact Ht|].
  destruct s as [|d s].
  - rewrite append_cons, append_nil_l. simpl in Hs.
    apply negb_true_iff in Hs.
    destruct t as [|e t]; simpl; rewrite Hs; [reflexivity|].
    exact Ht.
  - rewrite bigram_free_cons2 in Hs.
    apply andb_true_iff in Hs as [Hcd Hs].
    rewrite !append_cons, bigram_free_cons2, Hcd.
    rewrite <- append_cons. apply IH, Hs.
Qed.

Lemma bigram_free_tail (a b c : ascii) (s : string) :
  bigram_free a b (String c s) = true -> bigram_free a b s = true.
Proof.
  destruct s as [|d s]; [reflexivity|].
  rewrite bigram_free_cons2.
  intros H. now apply andb_true_iff in H as [_ H].
Qed.

Lemma bigram_free_no_occurrence (a b : ascii) (r s : string) :
  bigram_free a b s = true -> ~ contains (String a (String b r)) s.
Proof.
  intros Hs (pre & post & ->). induction pre as [|c pre IH].
  - rewrite append_nil_l, !append_cons, bigram_free_cons2 in Hs.
    rewrite !Ascii.eqb_refl in Hs. discriminate.
  - rewrite append_cons in Hs. apply IH.
    exact (bigram_free_tail _ _ _ _ Hs).
Qed.

Lemma all_chars_app (p : ascii -> bool) (s t : string) :
  all_chars p s = true -> all_chars p t = true ->
  all_chars p (s +:+ t) = true.
Proof.
  intros Hs Ht. induction s as [|c s IH]; [exact Ht|].
  rewrite append_cons. simpl in *.
  apply andb_true_iff in Hs as [-> Hs]. now apply IH.
Qed.

Lemma all_chars_bigram_free (p : ascii -> bool) (a b : ascii) (s : string) :
  all_chars p s = true -> p a = false -> bigram_free a b s = true.
Proof.
  intros Hs Ha.
  assert (Hne : forall c, p c = true -> Ascii.eqb c a = false).
  { intros c Hc. apply Ascii.eqb_neq. intros ->. congruence. }
  induction s as [|c s IH]; [reflexivity|].
  simpl in Hs. apply andb_true_iff in Hs as [Hc Hs].
  destruct s as [|d s].
  - simpl. now rewrite (Hne _ Hc).
  - rewrite bigram_free_cons2, (Hne _ Hc). simpl. apply IH, Hs.
Qed.

Lemma digits_string_of_uint (d : Decimal.uint) :
  all_chars digit_or_dash (NilEmpty.string_of_uint d) = true.
Proof. induction d; simpl; try reflexivity; exact IHd. Qed.

Lemma digits_NilZero (d : Decimal.uint) :
  all_chars digit_or_dash (NilZero.string_of_uint d) = true.
Proof. destruct d; try reflexivity; apply (digits_string_of_uint (_ d)). Qed.

Lemma digits_str_of_int (n : Z) : all_chars digit_or_dash (str_of_int n) = true.
Proof.
  unfold str_of_int, NilZero.string_of_int.
  destruct (Z.to_int n) as [d|d]; [apply digits_NilZero|].
  apply (all_chars_app _ (String "-"%char EmptyString));
    [reflexivity | apply digits_NilZero].
Qed.

Lemma digits_zeros (n : nat) : all_chars digit_or_dash (zeros n) = true.
Proof. induction n; [reflexivity | exact IHn]. Qed.

Lemma digits_zero_padded (w : nat) (n : N) :
  all_chars digit_or_dash (zero_padded w n) = true.
Proof. apply all_chars_app; [apply digits_zeros | apply digits_NilZero]. Qed.

Lemma digits_date_str (d : date) : all_chars digit_or_dash (date_str d) = true.
Proof.
  unfold date_str.
  repeat (apply all_chars_app;
          [first [apply digits_zero_padded | reflexivity] |]).
  apply digits_zero_padded.
Qed.

Lemma length_append (s t : string) :
  String.length (s +:+ t) = (String.length s + String.length t)%nat.
Proof.
  induction s as [|c s IH]; [reflexivity|].
  rewrite append_cons. simpl. now rewrite IH.
Qed.

Lemma append_inv_head (s t u : string) : s +:+ t = s +:+ u -> t = u.
Proof.
  induction s as [|c s IH]; [trivial|].
  rewrite !append_cons. intros Heq. injection Heq as Heq. now apply IH.
Qed.

Lemma append_inv_tail (s1 s2 t : string) : s1 +:+ t = s2 +:+ t -> s1 = s2.
Proof.
  revert s2. induction s1 as [|c s1 IH]; intros [|d s2] Heq.
  - reflexivity.
  - apply (f_equal String.length) in Heq.
    rewrite append_nil_l, append_cons in Heq. simpl in Heq.
    rewrite length_append in Heq. lia.
  - apply (f_equal String.length) in Heq.
    rewrite append_nil_l, append_cons in Heq. simpl in Heq.
    rewrite length_append in Heq. lia.
  - rewrite !append_cons in Heq. injection Heq as -> Heq.
    f_equal. now apply IH.
Qed.

End StringFacts.

(** Locating a text in a concatenation of template pieces. *)
Ltac in_literal := apply containsb_sound; vm_compute; reflexivity.

Ltac contains_chain :=
  lazymatch goal with
  | |- contains _ (_ +:+ _) =>
      first [ apply contains_app_l; solve [in_literal | apply contains_refl]
            | apply contains_app_r; contains_chain ]
  | |- contains _ _ => solve [in_literal | apply contains_refl]
  end.

(** ** The document formatter *)

Section Formatter.

Lemma filter_enumerate_from (l : list Document) (i : nat) (n : Z) :
  List.filter (fun p => PromptFamily.keeps (Some n) (fst p)) (enumerate_from i l)
  = enumerate_from i (firstn (Z.to_nat (n - Z.of_nat i)) l).
Proof.
  revert i. induction l as [|d l IH]; intros i.
  - now rewrite firstn_nil.
  - simpl. destruct (Z.ltb_spec (Z.of_nat i) n) as [Hlt|Hge].
    + replace (Z.to_nat (n - Z.of_nat i))
        with (S (Z.to_nat (n - Z.of_nat (S i)))) by lia.
      simpl. now rewrite IH.
    + rewrite IH.
      replace (Z.to_nat (n - Z.of_nat (S i))) with 0%nat by lia.
      replace (Z.to_nat (n - Z.of_nat i)) with 0%nat by lia.
      reflexivity.
Qed.

Lemma filter_enumerate_all (l : list Document) (i : nat) :
  List.filter (fun p => PromptFamily.keeps None (fst p)) (enumerate_from i l)
  = enumerate_from i l.
Proof.
  revert i. induction l as [|d l IH]; intros i; simpl; [|rewrite IH]; reflexivity.
Qed.

Lemma map_snd_enumerate_from {B} (f : Document -> B) (l : list Document) (i : nat) :
  map (fun p => f (snd p)) (enumerate_from i l) = map f l.
Proof.
  revert i. induction l as [|d l IH]; intros i; simpl; [|rewrite IH]; reflexivity.
Qed.

Lemma firstn_shown (docs : list Document) (n : Z) :
  firstn (Z.to_nat n) docs = firstn (shown_count docs (Some n)) docs.
Proof.
  unfold shown_count.
  destruct (Z.le_gt_cases n (Z.of_nat (length docs))) as [Hle|Hgt].
  - f_equal. lia.
  - rewrite !firstn_all2 by lia. reflexivity.
Qed.

Lemma shown_count_le (docs : list Document) (top_n : option Z) :
  (shown_count docs top_n <= length docs)%nat.
Proof. destruct top_n as [n|]; unfold shown_count; lia. Qed.

Lemma doc_blocks_prefix (docs : list Document) (top_n : option Z) :
  PromptFamily.doc_blocks docs top_n
  = map PromptFamily.doc_block (firstn (shown_count docs top_n) docs).
Proof.
  unfold PromptFamily.doc_blocks, enumerate. destruct top_n as [n|].
  - rewrite filter_enumerate_from, map_snd_enumerate_from.
    rewrite Z.sub_0_r. now rewrite firstn_shown.
  - rewrite filter_enumerate_all, map_snd_enumerate_from.
    unfold shown_count. now rewrite firstn_all.
Qed.

Lemma doc_block_labels (d : Document) :
  contains "Source:" (PromptFamily.doc_block d)
  /\ contains "Title:" (PromptFamily.doc_block d)
  /\ contains "Content:" (PromptFamily.doc_block d).
Proof. unfold PromptFamily.doc_block. repeat split; contains_chain. Qed.

End Formatter.

(** C1 (as amended).  [pretty_print_docs] joins with newlines the blocks of
    the first [shown_count] documents, in input order: all of them when
    [top_n] is [None], and [min(max(top_n, 0), len(documents))] of them
    when [top_n] is an integer.  Each block contains the labels [Source:],
    [Title:] and [Content:]. *)
Theorem pretty_print_docs_blocks (docs : list Document) (top_n : option Z) :
  PromptFamily.doc_blocks docs top_n
    = map PromptFamily.doc_block (firstn (shown_count docs top_n) docs)
  /\ PromptFamily.pretty_print_docs docs top_n
    = join nl (map PromptFamily.doc_block (firstn (shown_count docs top_n) docs))
  /\ length (PromptFamily.doc_blocks docs top_n) = shown_count docs top_n
  /\ Forall (fun b => contains "Source:" b /\ contains "Title:" b
                      /\ contains "Content:" b)
            (PromptFamily.doc_blocks docs top_n).
Proof.
  pose proof (doc_blocks_prefix docs top_n) as Hb.
  split; [exact Hb|]. split; [|split].
  - unfold PromptFamily.pretty_print_docs. now rewrite Hb.
  - rewrite Hb, length_map, length_firstn.
    pose proof (shown_count_le docs top_n). lia.
  - rewrite Hb. apply List.Forall_forall. intros b Hin.
    apply List.in_map_iff in Hin as (d & <- & _). apply doc_block_labels.
Qed.

(** C1, the statement as given fails: with [top_n = 0] no block is
    produced, while [min(top_n or len(documents), len(documents))] is the
    number of documents. *)
Lemma pretty_print_docs_top_n_zero :
  PromptFamily.pretty_print_docs [sample_doc] (Some 0) = EmptyString
  /\ length (PromptFamily.doc_blocks [sample_doc] (Some 0)) = 0%nat
  /\ claimed_block_count [sample_doc] (Some 0) = 1.
Proof. repeat split. Qed.

(** ** Search-query prompts *)

Section SearchQueries.

Lemma contains_app_l3 (x a b c t : string) :
  contains x (a +:+ b +:+ c) -> contains x (a +:+ b +:+ c +:+ t).
Proof. rewrite <- !append_assoc. rewrite (append_assoc a b c). apply contains_app_l. Qed.

Lemma length_slice_to {A} (l : list A) (stop : Z) :
  Z.of_nat (length (slice_to l stop))
  = if stop <? 0 then Z.max 0 (stop + Z.of_nat (length l))
    else Z.min stop (Z.of_nat (length l)).
Proof.
  unfold slice_to. rewrite length_firstn.
  destruct (Z.ltb_spec stop 0); lia.
Qed.

End SearchQueries.

(** A text spanning up to three consecutive template pieces. *)
Ltac contains_window :=
  lazymatch goal with
  | |- contains _ (_ +:+ _ +:+ _ +:+ _) =>
      first [ apply contains_app_l3; in_literal
            | apply contains_app_r; contains_window ]
  | |- contains _ _ => in_literal
  end.

(** C3 (as amended).  Whatever [max_iterations] is, the instruction
    sentence of the FAR search-query prompt lists all five primary sources
    and the example list holds at most five entries: exactly
    [min(max_iterations, 5)] of them when [max_iterations >= 0], and
    [max(0, 5 + max_iterations)] when it is negative, the slice then
    counting from the end of the source list. *)
Theorem far_search_queries_sources
  (question parent_query report_type : string)
  (max_iterations : option Z) (context : option dict_list) :
  let m := default FARPart10PromptFamily.default_max_iterations max_iterations in
  let out := FARPart10PromptFamily.generate_search_queries_prompt
               question parent_query report_type max_iterations context in
  let examples := FARPart10PromptFamily.example_items
                    (FARPart10PromptFamily.task question parent_query) m in
  contains ("these primary systems first: " +:+
            join ", " FARPart10PromptFamily._PRIMARY_SOURCES +:+ ".") out
  /\ Forall (fun s => contains s out) FARPart10PromptFamily._PRIMARY_SOURCES
  /\ length FARPart10PromptFamily._PRIMARY_SOURCES = 5%nat
  /\ contains ("e.g. [" +:+ join ", " examples +:+ "].") out
  /\ (length examples <= 5)%nat
  /\ Z.of_nat (length examples)
     = if m <? 0 then Z.max 0 (5 + m) else Z.min m 5.
Proof.
  intros m out examples.
  assert (Hlen : Z.of_nat (length examples)
                 = if m <? 0 then Z.max 0 (5 + m) else Z.min m 5).
  { unfold examples, FARPart10PromptFamily.example_items.
    rewrite length_map, length_slice_to.
    change (Z.of_nat (length FARPart10PromptFamily._PRIMARY_SOURCES)) with 5.
    destruct (m <? 0); lia. }
  split; [|split; [|split; [|split; [|split]]]].
  - unfold out, FARPart10PromptFamily.generate_search_queries_prompt.
    contains_window.
  - unfold out, FARPart10PromptFamily.generate_search_queries_prompt.
    repeat constructor; contains_chain.
  - reflexivity.
  - unfold out, FARPart10PromptFamily.generate_search_queries_prompt.
    do 10 apply contains_app_r.
    exists ". Return ONLY a Python list, ", EmptyString.
    rewrite append_nil_r. reflexivity.
  - revert Hlen. destruct (Z.ltb_spec m 0); lia.
  - exact Hlen.
Qed.

(** C3, the statement as given fails: with [max_iterations = -1] the
    slice [_PRIMARY_SOURCES[:-1]] keeps four sources, more than
    [min(-1, 5)]. *)
Lemma far_search_queries_negative_iterations :
  length (FARPart10PromptFamily.example_items "q" (-1)) = 4%nat
  /\ Z.min (-1) 5 = -1
  /\ Z.min (-1) 5
     < Z.of_nat (length (FARPart10PromptFamily.example_items "q" (-1)))
  /\ contains "e.g. [" (FARPart10PromptFamily.generate_search_queries_prompt
                          "q" EmptyString "ResearchReport" (Some (-1)) None).
Proof. repeat split; try in_literal. Qed.

Section TaskEmbedding.





End TaskEmbedding.



(** C8.  The base search-query prompt does not depend on [report_type]
    or [context], and the base report prompt does not depend on
    [report_source]. *)
Theorem base_prompts_ignore_unused_arguments `{PyRuntime}
  (question parent_query report_type1 report_type2 : string)
  (max_iterations : option Z) (context1 context2 : option dict_list)
  (context report_source1 report_source2 : string)
  (report_format : option string) (total_words : option Z)
  (tone : option (option string)) (language : option string) :
  PromptFamily.generate_search_queries_prompt
    question parent_query report_type1 max_iterations context1
  = PromptFamily.generate_search_queries_prompt
      question parent_query report_type2 max_iterations context2
  /\ PromptFamily.generate_report_prompt
       question context report_source1 report_format total_words tone language
     = PromptFamily.generate_report_prompt
         question context report_source2 report_format total_words tone language.
Proof. split; reflexivity. Qed.

(** ** Report prompts *)

Section Reports.
Context `{PyRuntime}.

Lemma str_of_int_avoids (a b : ascii) (n : Z) :
  digit_or_dash a = false -> bigram_free a b (str_of_int n) = true.
Proof. intros Ha. exact (all_chars_bigram_free _ a b _ (digits_str_of_int n) Ha). Qed.

Lemma date_str_avoids (a b : ascii) (d : date) :
  digit_or_dash a = false -> bigram_free a b (date_str d) = true.
Proof. intros Ha. exact (all_chars_bigram_free _ a b _ (digits_date_str d) Ha). Qed.

Lemma source_clause_web :
  FARPart10PromptFamily.source_clause "web"
  = FARPart10PromptFamily.contract_numbers_directive.
Proof. reflexivity. Qed.

Lemma source_clause_other (report_source : string) :
  report_source <> "web" ->
  FARPart10PromptFamily.source_clause report_source = EmptyString.
Proof.
  intros Hne. unfold FARPart10PromptFamily.source_clause.
  now apply String.eqb_neq in Hne as ->.
Qed.

Lemma far_report_contains_elements (today : date)
  (question context report_source : string)
  (report_format : option string) (total_words : option Z)
  (tone : option (option string)) (language : option string) :
  Forall (fun e =>
            contains e
              (FARPart10PromptFamily.generate_report_prompt today
                 question context report_source
                 report_format total_words tone language))
         required_elements.
Proof.
  unfold FARPart10PromptFamily.generate_report_prompt.
  repeat constructor; contains_chain.
Qed.

(** The two report templates differ from their thirteenth character on. *)
Lemma report_prompts_differ (today : date)
  (q1 c1 s1 q2 c2 s2 : string) (f1 f2 : option string) (w1 w2 : option Z)
  (t1 t2 : option (option string)) (l1 l2 : option string) :
  FARPart10PromptFamily.generate_report_prompt today q1 c1 s1 f1 w1 t1 l1
  <> PromptFamily.generate_report_prompt q2 c2 s2 f2 w2 t2 l2.
Proof.
  intros Heq. apply (f_equal (String.get 12)) in Heq.
  unfold FARPart10PromptFamily.generate_report_prompt,
    PromptFamily.generate_report_prompt in Heq.
  cbv [String.get String.append Nat.eqb] in Heq. discriminate.
Qed.

End Reports.

(** C10.  With [total_words] omitted the FAR report prompt asks for at
    least 800 words and the base report prompt for 1000 or more: the two
    defaults differ. *)
Theorem report_default_word_counts `{PyRuntime} (today : date)
  (question context report_source : string) (report_format : option string)
  (tone : option (option string)) (language : option string) :
  FARPart10PromptFamily.default_total_words = 800
  /\ PromptFamily.default_total_words = 1000
  /\ FARPart10PromptFamily.default_total_words
     <> PromptFamily.default_total_words
  /\ contains "market research report (≥800 words) addressing: "
       (FARPart10PromptFamily.generate_report_prompt today
          question context report_source report_format None tone language)
  /\ contains "draft a 1000+ word report answering: "
       (PromptFamily.generate_report_prompt
          question context report_source report_format None tone language).
Proof.
  repeat split; try discriminate.
  - unfold FARPart10PromptFamily.generate_report_prompt. contains_window.
  - unfold PromptFamily.generate_report_prompt. contains_window.
Qed.


(** ** Occurrences across the pieces of a template *)

Section Occurrences.

Lemma contains_trans (x y z : string) :
  contains x y -> contains y z -> contains x z.
Proof.
  intros Hxy (pre & post & ->).
  apply contains_app_r, contains_app_l, Hxy.
Qed.

Lemma ends_with_contains (x s : string) : ends_with x s -> contains x s.
Proof.
  intros (before & ->). exists before, EmptyString.
  now rewrite append_nil_r.
Qed.

Lemma prefixb_complete (p rest : string) : prefixb p (p +:+ rest) = true.
Proof.
  induction p as [|c p IH]; [reflexivity|].
  rewrite append_cons. simpl. now rewrite Ascii.eqb_refl, IH.
Qed.

Lemma containsb_complete (sub s : string) :
  contains sub s -> containsb sub s = true.
Proof.
  intros (pre & post & ->). induction pre as [|c pre IH].
  - rewrite append_nil_l.
    destruct (sub +:+ post) as [|c rest] eqn:Heq; simpl;
      rewrite <- Heq, prefixb_complete; reflexivity.
  - rewrite append_cons. simpl. rewrite IH. apply orb_true_r.
Qed.

Lemma not_contains (sub s : string) :
  containsb sub s = false -> ~ contains sub s.
Proof.
  intros Hb Hc. apply containsb_complete in Hc. congruence.
Qed.

(** Two ways of writing a text as a concatenation share a cut. *)
Lemma append_eq_append (a b c d : string) :
  a +:+ b = c +:+ d ->
  (exists x, c = a +:+ x /\ b = x +:+ d)
  \/ (exists x, a = c +:+ x /\ d = x +:+ b).
Proof.
  revert c. induction a as [|ch a IH]; intros c Heq.
  - left. exists c. now rewrite append_nil_l in *.
  - destruct c as [|ch' c].
    + right. exists (String ch a). now rewrite append_nil_l in *.
    + rewrite !append_cons in Heq. injection Heq as <- Heq.
      destruct (IH _ Heq) as [(x & -> & ->)|(x & -> & ->)].
      * left. now exists x.
      * right. now exists x.
Qed.

Lemma bigram_free_ends (a b : ascii) (pre : string) :
  bigram_free a b (pre +:+ String a EmptyString) = false.
Proof.
  induction pre as [|c pre IH].
  - simpl. now rewrite Ascii.eqb_refl.
  - rewrite append_cons.
    destruct (bigram_free a b (String c (pre +:+ String a EmptyString)))
      eqn:Hfree; [|reflexivity].
    apply bigram_free_tail in Hfree. congruence.
Qed.

(** A piece that never spells the first two characters of [d], nor ends
    in the first, holds no beginning of an occurrence of [d]. *)
Lemma skip_piece (a b : ascii) (r d s t : string) :
  d = String a (String b r) ->
  bigram_free a b s = true ->
  contains d (s +:+ t) -> contains d t.
Proof.
  intros -> Hs (pre & post & Heq).
  apply append_eq_append in Heq as [(x & _ & ->)|(x & -> & Heq)].
  - now exists x, post.
  - destruct x as [|c0 x].
    + rewrite append_nil_l in Heq. rewrite <- Heq. now exists EmptyString, post.
    + rewrite !append_cons in Heq. injection Heq as <- Heq.
      destruct x as [|c1 x].
      * now rewrite bigram_free_ends in Hs.
      * rewrite append_cons in Heq. injection Heq as <- _.
        exfalso. apply (bigram_free_no_occurrence a b x _ Hs).
        exists pre, EmptyString. now rewrite append_nil_r.
Qed.

Lemma in_splits (d1 d2 : string) :
  d1 <> EmptyString -> d2 <> EmptyString ->
  In (d1, d2) (splits (d1 +:+ d2)).
Proof.
  intros H1 H2. induction d1 as [|c d1 IH]; [congruence|].
  rewrite append_cons. cbn [splits]. apply in_or_app.
  destruct d1 as [|c' d1].
  - left. rewrite append_nil_l. destruct d2; [congruence | now left].
  - right. apply (in_map (fun p => (String c (fst p), snd p))
                    (splits (String c' d1 +:+ d2)) (String c' d1, d2)).
    apply IH. discriminate.
Qed.

Lemma starts_with_compatible (y t rest : string) :
  starts_with y (t +:+ rest) -> prefixb y t || prefixb t y = true.
Proof.
  intros (post & Heq).
  apply append_eq_append in Heq as [(x & -> & _)|(x & -> & _)].
  - rewrite prefixb_complete. apply orb_true_r.
  - now rewrite prefixb_complete.
Qed.

(** An occurrence of [d] in a text [c] followed by a piece [t] lies in
    [c], or after [c], or runs from the end of [c] into [t] along one of
    the cuts of [d] that [t] admits. *)
Lemma caller_piece (d c t rest : string) :
  contains d (c +:+ t +:+ rest) ->
  contains d c
  \/ contains d (t +:+ rest)
  \/ Exists (fun p => ends_with (fst p) c /\ starts_with (snd p) (t +:+ rest))
            (joins d t).
Proof.
  intros (pre & post & Heq).
  apply append_eq_append in Heq as [(x & _ & ->)|(x & -> & Heq)].
  - right. left. now exists x, post.
  - symmetry in Heq.
    apply append_eq_append in Heq as [(y & Hd & Hrest)|(y & -> & _)].
    + destruct x as [|cx x].
      * right. left. rewrite append_nil_l in Hd. subst y.
        rewrite Hrest. now exists EmptyString, post.
      * destruct y as [|cy y].
        { left. rewrite append_nil_r in Hd. subst d.
          exists pre, EmptyString. now rewrite append_nil_r. }
        right. right. apply List.Exists_exists.
        exists (String cx x, String cy y). split.
        { unfold joins. apply List.filter_In. split.
          - rewrite Hd. apply in_splits; discriminate.
          - apply (starts_with_compatible _ _ rest). now exists post. }
        split; [now exists pre | now exists post].
    + left. now exists pre, y.
Qed.

Lemma caller_piece_clean (d c t rest : string) :
  joins d t = [] ->
  contains d (c +:+ t +:+ rest) ->
  contains d c \/ contains d (t +:+ rest).
Proof.
  intros Hnone Hc. apply caller_piece in Hc as [Hc|[Hc|Hc]]; auto.
  rewrite Hnone in Hc. inversion Hc.
Qed.

Lemma caller_last (d c t : string) :
  contains d (c +:+ t) ->
  contains d c
  \/ contains d t
  \/ Exists (fun p => ends_with (fst p) c /\ starts_with (snd p) t) (joins d t).
Proof.
  intros Hc. rewrite <- (append_nil_r t) in Hc.
  apply caller_piece in Hc. now rewrite append_nil_r in Hc.
Qed.

(** The one cut of the directive that a period can complete. *)
Lemma directive_joins_period :
  joins FARPart10PromptFamily.contract_numbers_directive "."
  = [(directive_less_period, ".")].
Proof. vm_compute. reflexivity. Qed.

Lemma directive_before_period (c : string) :
  contains FARPart10PromptFamily.contract_numbers_directive (c +:+ ".") ->
  contains FARPart10PromptFamily.contract_numbers_directive c
  \/ ends_with directive_less_period c.
Proof.
  intros Hc. apply caller_last in Hc as [Hc|[Hc|Hc]].
  - now left.
  - exfalso. revert Hc. now apply not_contains.
  - right. rewrite directive_joins_period in Hc.
    apply List.Exists_cons in Hc as [[Hends _]|Hnil];
      [exact Hends | now apply List.Exists_nil in Hnil].
Qed.

Lemma str_truthy_false (s : string) : str_truthy s = false -> s = EmptyString.
Proof. destruct s; [reflexivity | discriminate]. Qed.

Lemma base_tone_clause_absent (tone : option (option string)) :
  In tone [None; Some None; Some (Some EmptyString)] ->
  PromptFamily.tone_clause (default PromptFamily.default_tone tone)
  = EmptyString.
Proof. intros [<-|[<-|[<-|[]]]]; reflexivity. Qed.

(** The tone clause of the FAR prompt in terms of the tone in force. *)
Lemma far_tone_clause_text (tone : option string) :
  FARPart10PromptFamily.tone_clause tone
  = if str_truthy (default EmptyString tone)
    then "Write in a " +:+ default EmptyString tone +:+ " tone."
    else EmptyString.
Proof. destruct tone as [[|c t]|]; reflexivity. Qed.

End Occurrences.

(** Reading a template from the left for an occurrence of a text that
    starts with the characters [a], [b]: a literal piece and a rendered
    number are passed over, a caller-supplied text either holds the
    occurrence, which [found] then reports, or is passed over as well. *)
Ltac pass_pieces H a b found :=
  repeat first
    [ apply (skip_piece a b _ _ _ _ eq_refl) in H;
      [| solve [ reflexivity
               | apply str_of_int_avoids; reflexivity
               | apply date_str_avoids; reflexivity ] ]
    | apply caller_piece_clean in H;
      [ destruct H as [H|H]; [ solve [found H] | ] | reflexivity ] ].

Ltac found_in_texts H :=
  repeat first [ apply List.Exists_cons_hd; exact H
               | apply List.Exists_cons_tl ].

Ltac found_left_in_texts H := left; found_in_texts H.

Ltac contains_tail H :=
  first [ exact H | apply contains_app_r; contains_tail H ].

(** C5 (as amended).  When [tone] is omitted, [None] or empty, the base
    report prompt contains the opening words of a tone directive,
    [Write in a], exactly when one of the caller-supplied texts (the
    context, the question, the upper-cased report format, the language)
    contains them; so it contains no tone directive
    [Write in a <tone> tone.] unless such a text brings its opening.  With
    [tone = "formal"] the prompt contains [Write in a formal tone.]. *)
Theorem base_report_tone `{PyRuntime}
  (question context report_source : string)
  (report_format : option string) (total_words : option Z)
  (tone : option (option string)) (language : option string) :
  (In tone [None; Some None; Some (Some EmptyString)] ->
   (contains tone_directive_opening
      (PromptFamily.generate_report_prompt
         question context report_source
         report_format total_words tone language)
    <-> Exists (contains tone_directive_opening)
          (base_report_texts question context report_format language))
   /\ (Forall (fun text => ~ contains tone_directive_opening text)
         (base_report_texts question context report_format language) ->
       forall t,
         ~ contains ("Write in a " +:+ t +:+ " tone.")
             (PromptFamily.generate_report_prompt
                question context report_source
                report_format total_words tone language)))
  /\ contains "Write in a formal tone."
       (PromptFamily.generate_report_prompt
          question context report_source
          report_format total_words (Some (Some "formal")) language).
Proof.
  split.
  - intros Habsent.
    pose proof (base_tone_clause_absent tone Habsent) as Hclause.
    assert (Hiff : contains tone_directive_opening
                     (PromptFamily.generate_report_prompt
                        question context report_source
                        report_format total_words tone language)
                   <-> Exists (contains tone_directive_opening)
                         (base_report_texts question context
                            report_format language)).
    { unfold PromptFamily.generate_report_prompt, base_report_texts.
      rewrite Hclause. split.
      - intros Hc. pass_pieces Hc "W"%char "r"%char found_in_texts.
        exfalso. revert Hc. now apply not_contains.
      - intros Hex. apply List.Exists_exists in Hex as (text & Hin & Hc).
        apply (contains_trans _ text _ Hc).
        destruct Hin as [<-|[<-|[<-|[<-|[]]]]]; contains_chain. }
    split; [exact Hiff|].
    intros Hclean t Hdirective.
    assert (Hopening : contains tone_directive_opening
                         ("Write in a " +:+ t +:+ " tone."))
      by now exists EmptyString, (" " +:+ t +:+ " tone.").
    apply (contains_trans _ _ _ Hopening), Hiff in Hdirective.
    apply List.Exists_exists in Hdirective as (text & Hin & Hc).
    rewrite List.Forall_forall in Hclean. exact (Hclean text Hin Hc).
  - unfold PromptFamily.generate_report_prompt. contains_chain.
Qed.

(** C5 on texts that spell [Wr] or end in [W] without holding the
    opening of a tone directive. *)
Lemma base_report_tone_witness :
  In (@None (option string)) [None; Some None; Some (Some EmptyString)]
  /\ Forall (fun text => ~ contains tone_directive_opening text)
       (base_report_texts (H := ascii_runtime)
          "Who serves the NW" "Wright Brothers Inc." None None)
  /\ ~ contains tone_directive_opening
         (PromptFamily.generate_report_prompt (H := ascii_runtime)
            "Who serves the NW" "Wright Brothers Inc." "web"
            None None None None)
  /\ ~ contains "Write in a formal tone."
         (PromptFamily.generate_report_prompt (H := ascii_runtime)
            "Who serves the NW" "Wright Brothers Inc." "web"
            None None None None).
Proof.
  assert (Hin : In (@None (option string))
                   [None; Some None; Some (Some EmptyString)])
    by (left; reflexivity).
  assert (Htexts : Forall (fun text => ~ contains tone_directive_opening text)
                     (base_report_texts (H := ascii_runtime)
                        "Who serves the NW" "Wright Brothers Inc." None None))
    by (repeat constructor; apply not_contains; reflexivity).
  split; [exact Hin|]. split; [exact Htexts|].
  destruct (base_report_tone (H := ascii_runtime)
              "Who serves the NW" "Wright Brothers Inc." "web"
              None None None None) as [Habsent _].
  destruct (Habsent Hin) as [Hiff Hnone]. split.
  - intros Hc. apply Hiff in Hc.
    apply List.Exists_exists in Hc as (text & Htext & Hc).
    rewrite List.Forall_forall in Htexts. exact (Htexts text Htext Hc).
  - exact (Hnone Htexts "formal").
Defined.

(** C5, the statement as given fails: with no tone passed, a context that
    itself holds a tone directive puts one into the prompt. *)
Lemma base_report_tone_from_context :
  PromptFamily.tone_clause (default PromptFamily.default_tone None)
    = EmptyString
  /\ contains "Write in a formal tone."
       (PromptFamily.generate_report_prompt (H := ascii_runtime)
          "Who sells laptops?" "Write in a formal tone." "web"
          None None None None)
  /\ contains tone_directive_opening
       (PromptFamily.generate_report_prompt (H := ascii_runtime)
          "Who sells laptops?" "Write in a formal tone." "web"
          None None None None).
Proof. repeat split; in_literal. Qed.

(** C4 (as amended).  The FAR report prompt always contains the five
    required elements, and contains the contract-numbers directive when
    [report_source] is ["web"].  For any other [report_source] it contains
    the directive exactly when a caller-supplied text (the context, the
    question, the upper-cased report format, the tone, the language)
    contains it, or the language ends with the directive less its final
    period, which the template then supplies. *)
Theorem far_report_elements_and_directive `{PyRuntime} (today : date)
  (question context report_source : string)
  (report_format : option string) (total_words : option Z)
  (tone : option (option string)) (language : option string) :
  let out := FARPart10PromptFamily.generate_report_prompt today
               question context report_source
               report_format total_words tone language in
  Forall (fun e => contains e out) required_elements
  /\ (report_source = "web" ->
      contains FARPart10PromptFamily.contract_numbers_directive out)
  /\ (report_source <> "web" ->
      (contains FARPart10PromptFamily.contract_numbers_directive out
       <-> Exists (contains FARPart10PromptFamily.contract_numbers_directive)
             (far_report_texts question context report_format tone language)
           \/ ends_with directive_less_period
                (default FARPart10PromptFamily.default_language language))).
Proof.
  intros out. split; [|split].
  - apply far_report_contains_elements.
  - intros ->. unfold out, FARPart10PromptFamily.generate_report_prompt.
    rewrite source_clause_web. contains_chain.
  - intros Hne. pose proof (source_clause_other report_source Hne) as Hclause.
    unfold out, FARPart10PromptFamily.generate_report_prompt, far_report_texts.
    rewrite Hclause, far_tone_clause_text.
    set (tone_text := default EmptyString
                        (default FARPart10PromptFamily.default_tone tone)).
    destruct (str_truthy tone_text) eqn:Htruthy.
    + rewrite !append_assoc. split.
      * intros Hc.
        pass_pieces Hc "L"%char "i"%char found_left_in_texts.
        apply directive_before_period in Hc as [Hc|Hends].
        -- found_left_in_texts Hc.
        -- now right.
      * intros [Hex|Hends].
        -- apply List.Exists_exists in Hex as (text & Hin & Hc).
           apply (contains_trans _ text _ Hc).
           destruct Hin as [<-|[<-|[<-|[<-|[<-|[]]]]]]; contains_chain.
        -- assert (Hc : contains FARPart10PromptFamily.contract_numbers_directive
                          (default FARPart10PromptFamily.default_language language
                           +:+ ".")).
           { destruct Hends as (before & ->). exists before, EmptyString.
             now rewrite append_nil_r, append_assoc. }
           contains_tail Hc.
    + apply str_truthy_false in Htruthy. rewrite Htruthy. split.
      * intros Hc.
        pass_pieces Hc "L"%char "i"%char found_left_in_texts.
        apply directive_before_period in Hc as [Hc|Hends].
        -- found_left_in_texts Hc.
        -- now right.
      * intros [Hex|Hends].
        -- apply List.Exists_exists in Hex as (text & Hin & Hc).
           destruct Hin as [<-|[<-|[<-|[<-|[<-|[]]]]]];
             apply (contains_trans _ _ _ Hc); contains_chain.
        -- assert (Hc : contains FARPart10PromptFamily.contract_numbers_directive
                          (default FARPart10PromptFamily.default_language language
                           +:+ ".")).
           { destruct Hends as (before & ->). exists before, EmptyString.
             now rewrite append_nil_r, append_assoc. }
           contains_tail Hc.
Qed.

(** C4 on texts that spell [Li] or [L] without holding the directive: a
    context about Linux, the language Lithuanian, the format HTML. *)
Lemma far_report_elements_and_directive_witness :
  "local" <> "web"
  /\ Forall (fun text =>
               ~ contains FARPart10PromptFamily.contract_numbers_directive text)
       (far_report_texts (H := ascii_runtime)
          "Who sells laptops?" "Linux laptop vendors" (Some "html") None
          (Some "Lithuanian"))
  /\ ~ ends_with directive_less_period "Lithuanian"
  /\ ~ contains FARPart10PromptFamily.contract_numbers_directive
         (FARPart10PromptFamily.generate_report_prompt (H := ascii_runtime)
            sample_date "Who sells laptops?" "Linux laptop vendors" "local"
            (Some "html") None None (Some "Lithuanian"))
  /\ contains FARPart10PromptFamily.contract_numbers_directive
       (FARPart10PromptFamily.generate_report_prompt (H := ascii_runtime)
          sample_date "Who sells laptops?" "Linux laptop vendors" "web"
          (Some "html") None None (Some "Lithuanian")).
Proof.
  assert (Hne : "local" <> "web") by discriminate.
  assert (Htexts :
            Forall (fun text =>
                      ~ contains FARPart10PromptFamily.contract_numbers_directive
                          text)
              (far_report_texts (H := ascii_runtime)
                 "Who sells laptops?" "Linux laptop vendors" (Some "html") None
                 (Some "Lithuanian")))
    by (repeat constructor; apply not_contains; reflexivity).
  assert (Hends : ~ ends_with directive_less_period "Lithuanian").
  { intros Hends. apply ends_with_contains in Hends. revert Hends.
    now apply not_contains. }
  split; [exact Hne|]. split; [exact Htexts|]. split; [exact Hends|]. split.
  - destruct (far_report_elements_and_directive (H := ascii_runtime)
                sample_date "Who sells laptops?" "Linux laptop vendors" "local"
                (Some "html") None None (Some "Lithuanian")) as (_ & _ & Hother).
    intros Hc. apply (Hother Hne) in Hc as [Hc|Hc].
    + apply List.Exists_exists in Hc as (text & Htext & Hc).
      rewrite List.Forall_forall in Htexts. exact (Htexts text Htext Hc).
    + exact (Hends Hc).
  - destruct (far_report_elements_and_directive (H := ascii_runtime)
                sample_date "Who sells laptops?" "Linux laptop vendors" "web"
                (Some "html") None None (Some "Lithuanian")) as (_ & Hweb & _).
    exact (Hweb eq_refl).
Defined.

(** C4, the statement as given fails: with a source other than ["web"], a
    context that itself holds the directive puts it into the prompt, and so
    does a language that ends with the directive less its period. *)
Lemma far_report_directive_from_context :
  String.eqb "local" "web" = false
  /\ contains FARPart10PromptFamily.contract_numbers_directive
       (FARPart10PromptFamily.generate_report_prompt (H := ascii_runtime)
          sample_date "Who sells laptops?"
          FARPart10PromptFamily.contract_numbers_directive "local"
          None None None None)
  /\ contains FARPart10PromptFamily.contract_numbers_directive
       (FARPart10PromptFamily.generate_report_prompt (H := ascii_runtime)
          sample_date "Who sells laptops?" "Vendor list" "local"
          None None None (Some directive_less_period)).
Proof. repeat split; in_literal. Qed.

(** ** Registries and the factory *)

Section Factory.
Context {Config : Type} `{PyRuntime}.

Lemma getattr_report (prompt_family : family_instance Config) :
  getattr prompt_family "generate_report_prompt"
  = Ok (AttrFunction
          match class_of prompt_family with
          | PromptFamily_class => fn_base_report
          | FARPart10PromptFamily_class => fn_far_report
          end).
Proof. destruct prompt_family as [[] c]; reflexivity. Qed.

Lemma call_report_base (today : date) (config : option Config)
  (question context report_source : string)
  (report_format : option string) (total_words : option Z)
  (tone : option (option string)) (language : option string) :
  call_generate_report_prompt today (mkFamily PromptFamily_class config)
    question context report_source report_format total_words tone language
  = Ok (PromptFamily.generate_report_prompt
          question context report_source report_format total_words tone language).
Proof. reflexivity. Qed.

Lemma call_report_far (today : date) (config : option Config)
  (question context report_source : string)
  (report_format : option string) (total_words : option Z)
  (tone : option (option string)) (language : option string) :
  call_generate_report_prompt today (mkFamily FARPart10PromptFamily_class config)
    question context report_source report_format total_words tone language
  = Ok (FARPart10PromptFamily.generate_report_prompt today
          question context report_source report_format total_words tone language).
Proof. reflexivity. Qed.

Lemma contains_name_in_warning (name : string) :
  contains name (unknown_family_warning name).
Proof. unfold unknown_family_warning. contains_chain. Qed.

End Factory.

(** C2.  For a name outside the registry [get_prompt_family] returns the
    very instance it returns for ["Default"] (class [PromptFamily], the
    same configuration, hence the same result of every operation), and
    issues exactly one warning, whose text contains the name; no warning
    is issued for the two registered names.  The instance returned for
    ["FARPart10"] has a report operation whose output contains the five
    required elements and is never equal to the output of the default
    instance on the same arguments. *)
Theorem unknown_family_falls_back {Config : Type} `{PyRuntime} (today : date)
  (name : string) (config : option Config)
  (question context report_source : string)
  (report_format : option string) (total_words : option Z)
  (tone : option (option string)) (language : option string) :
  prompt_family_mapping !! name = None ->
  fst (get_prompt_family name config) = fst (get_prompt_family "Default" config)
  /\ class_of (fst (get_prompt_family name config)) = PromptFamily_class
  /\ snd (get_prompt_family name config) = [unknown_family_warning name]
  /\ contains name (unknown_family_warning name)
  /\ snd (get_prompt_family "Default" config) = []
  /\ snd (get_prompt_family "FARPart10" config) = []
  /\ call_generate_report_prompt today (fst (get_prompt_family name config))
       question context report_source report_format total_words tone language
     = call_generate_report_prompt today
         (fst (get_prompt_family "Default" config))
         question context report_source report_format total_words tone language
  /\ exists far_out base_out,
       call_generate_report_prompt today
         (fst (get_prompt_family "FARPart10" config))
         question context report_source report_format total_words tone language
       = Ok far_out
       /\ call_generate_report_prompt today
            (fst (get_prompt_family "Default" config))
            question context report_source report_format total_words tone language
          = Ok base_out
       /\ Forall (fun e => contains e far_out) required_elements
       /\ far_out <> base_out.
Proof.
  intros Hunknown.
  assert (Hinst : fst (get_prompt_family name config)
                  = fst (get_prompt_family "Default" config)).
  { unfold get_prompt_family. now rewrite Hunknown. }
  split; [exact Hinst|]. split; [now rewrite Hinst|]. split.
  { unfold get_prompt_family. now rewrite Hunknown. }
  split; [apply contains_name_in_warning|].
  split; [reflexivity|]. split; [reflexivity|].
  split; [now rewrite Hinst|].
  eexists. eexists.
  split; [apply call_report_far|]. split; [apply call_report_base|].
  split.
  - apply far_report_contains_elements.
  - apply report_prompts_differ.
Qed.

(** C2 on the name of the specification, [NoSuchFamily]. *)
Lemma unknown_family_falls_back_witness :
  (prompt_family_mapping !! "NoSuchFamily" = None)
  /\ @get_prompt_family unit "NoSuchFamily" None
     = (mkFamily PromptFamily_class None,
        ["Unknown prompt family 'NoSuchFamily', using Default."])
  /\ fst (@get_prompt_family unit "NoSuchFamily" None)
     = fst (@get_prompt_family unit "Default" None)
  /\ snd (@get_prompt_family unit "NoSuchFamily" None)
     = [unknown_family_warning "NoSuchFamily"].
Proof.
  assert (Hunknown : prompt_family_mapping !! "NoSuchFamily" = None)
    by reflexivity.
  split; [exact Hunknown|]. split; [reflexivity|].
  destruct (unknown_family_falls_back (Config := unit) (H := ascii_runtime)
              sample_date "NoSuchFamily" None
              "Who sells laptops?" "Vendor list" "web" None None None None
              Hunknown) as (Hinst & _ & Hwarn & _).
  split; [exact Hinst | exact Hwarn].
Defined.

(** C9.  For a report type outside the table, [get_prompt_by_report_type]
    resolves to what it resolves to for ["ResearchReport"]: the
    [generate_report_prompt] attribute of the instance, which is the report
    generator of the instance's class. *)
Theorem report_type_falls_back {Config : Type} `{PyRuntime} (today : date)
  (report_type : string) (prompt_family : family_instance Config) :
  report_type_mapping !! report_type = None ->
  get_prompt_by_report_type report_type prompt_family
  = get_prompt_by_report_type "ResearchReport" prompt_family
  /\ get_prompt_by_report_type report_type prompt_family
     = getattr prompt_family "generate_report_prompt"
  /\ exists f,
       getattr prompt_family "generate_report_prompt" = Ok (AttrFunction f)
       /\ as_report_generator today f
          = Some match class_of prompt_family with
                 | PromptFamily_class => PromptFamily.generate_report_prompt
                 | FARPart10PromptFamily_class =>
                     FARPart10PromptFamily.generate_report_prompt today
                 end.
Proof.
  intros Hmissing.
  assert (Hfallback : get_prompt_by_report_type report_type prompt_family
                      = getattr prompt_family "generate_report_prompt").
  { unfold get_prompt_by_report_type. now rewrite Hmissing. }
  split; [|split].
  - rewrite Hfallback. reflexivity.
  - exact Hfallback.
  - eexists. split; [apply getattr_report|].
    destruct (class_of prompt_family); reflexivity.
Qed.

(** C9 on the report type of the specification, [anything-else], for an
    instance of the FAR family. *)
Lemma report_type_falls_back_witness :
  report_type_mapping !! "anything-else" = None
  /\ get_prompt_by_report_type "anything-else"
       (mkFamily (Config := unit) FARPart10PromptFamily_class None)
     = get_prompt_by_report_type "ResearchReport"
         (mkFamily (Config := unit) FARPart10PromptFamily_class None)
  /\ get_prompt_by_report_type "anything-else"
       (mkFamily (Config := unit) FARPart10PromptFamily_class None)
     = Ok (AttrFunction fn_far_report).
Proof.
  assert (Hmissing : report_type_mapping !! "anything-else" = None)
    by reflexivity.
  split; [exact Hmissing|].
  destruct (report_type_falls_back (Config := unit) (H := ascii_runtime)
              sample_date "anything-else"
              (mkFamily FARPart10PromptFamily_class None) Hmissing)
    as (Hsame & _ & _).
  split; [exact Hsame | reflexivity].
Defined.

(** ** Totality *)

Section Totality.
Context `{PyRuntime}.

(** Induction over values, through the lists nested in them. *)
Lemma pyval_induction (P : pyval -> Prop) :
  (forall v, P (PyAtom v)) ->
  (forall f, P (PyFloat f)) ->
  (forall items, Forall P items -> P (PyList items)) ->
  (forall items, Forall P items -> P (PyTuple items)) ->
  (forall items, Forall (fun kv => P (snd kv)) items -> P (PyMapping items)) ->
  (forall type_name, P (PyObject type_name)) ->
  P PyCircular ->
  forall o, P o.
Proof.
  intros Hatom Hfloat Hlist Htuple Hmapping Hobject Hcircular. fix IH 1.
  intros [v|f|items|items|items|t|].
  - apply Hatom.
  - apply Hfloat.
  - apply Hlist. induction items as [|x items IHitems]; constructor;
      [apply IH | exact IHitems].
  - apply Htuple. induction items as [|x items IHitems]; constructor;
      [apply IH | exact IHitems].
  - apply Hmapping. induction items as [|[k x] items IHitems]; constructor;
      [apply IH | exact IHitems].
  - apply Hobject.
  - apply Hcircular.
Qed.

(** *** Results and the problems listed for them *)

Lemma first_problem_bind {A B} (p1 p2 : list exn) (r : result A)
  (k : A -> result B) :
  first_problem p1 r -> (forall a, first_problem p2 (k a)) ->
  first_problem (p1 ++ p2) (let? a := r in k a).
Proof.
  intros Hr Hk. destruct r as [a|e]; simpl in *.
  - subst p1. apply Hk.
  - destruct Hr as [rest ->]. now exists (rest ++ p2).
Qed.

Lemma first_problem_then {A B} (p : list exn) (r : result A) (g : A -> B) :
  first_problem p r -> first_problem p (let? a := r in Ok (g a)).
Proof. intros Hr. destruct r; exact Hr. Qed.

Lemma first_problem_depth {B} (level : nat) (p : list exn) (r : result B) :
  first_problem p r ->
  first_problem (Json.depth_problems level ++ p)
    (if (json_max_nesting <? level)%nat then Raise Json.too_deep else r).
Proof.
  intros Hr. unfold Json.depth_problems.
  destruct (json_max_nesting <? level)%nat; simpl; [eauto | exact Hr].
Qed.

Lemma first_problem_ok {B} (p : list exn) (r : result B) :
  first_problem p r -> p = [] -> exists b, r = Ok b.
Proof.
  intros Hr ->. destruct r as [b|e]; [now exists b|].
  destruct Hr as [rest Hrest]. discriminate.
Qed.


Lemma traverse_first_problem {A B} (f : A -> result B)
  (problems : A -> list exn) (l : list A) :
  Forall (fun x => first_problem (problems x) (f x)) l ->
  first_problem (concat (map problems l)) (traverse f l).
Proof.
  induction 1 as [|x l Hx _ IH]; [reflexivity|].
  cbn [map concat traverse]. apply first_problem_bind; [exact Hx|].
  intros y. now apply first_problem_then.
Qed.


(** *** Integers *)

Lemma format_int_first_problem (n : Z) :
  first_problem (Json.int_problems n) (format_int n).
Proof.
  unfold Json.int_problems, format_int.
  destruct (int_fits n); simpl; eauto.
Qed.








(** *** The JSON encoder *)

Lemma encode_key_first_problem (k : pykey) :
  first_problem (Json.key_problems k) (Json.encode_key k).
Proof.
  destruct k as [s|n|[]| |f|t]; simpl; eauto.
  apply first_problem_then, format_int_first_problem.
Qed.

(** The encoder returns when no problem is listed for the value and
    otherwise raises the first one listed. *)
Lemma iterencode_first_problem (o : pyval) :
  forall level,
    first_problem (Json.problems level o) (Json.iterencode level o).
Proof.
  induction o as [v|f|items IH|items IH|items IH|t|] using pyval_induction;
    intros level.
  - destruct v as [|[]|n|s]; simpl; eauto. apply format_int_first_problem.
  - reflexivity.
  - cbn [Json.iterencode Json.problems].
    apply first_problem_depth, first_problem_then, traverse_first_problem.
    eapply List.Forall_impl; [|exact IH]. intros y Hy. apply Hy.
  - cbn [Json.iterencode Json.problems].
    apply first_problem_depth, first_problem_then, traverse_first_problem.
    eapply List.Forall_impl; [|exact IH]. intros y Hy. apply Hy.
  - cbn [Json.iterencode Json.problems].
    apply first_problem_depth, first_problem_then.
    apply (traverse_first_problem _
             (fun kv => Json.key_problems (fst kv)
                        ++ Json.problems (S level) (snd kv))).
    eapply List.Forall_impl; [|exact IH]. intros [k y] Hy.
    apply first_problem_bind; [apply encode_key_first_problem|].
    intros key. apply first_problem_then, Hy.
  - simpl. eauto.
  - cbn [Json.iterencode Json.problems].
    apply (first_problem_depth level [Json.circular_reference]
             (Raise Json.circular_reference)).
    simpl. eauto.
Qed.





(** *** The tool-selection operation *)


Lemma tools_serializable_problems (tools_info : dict_list) :
  tools_serializable tools_info = true
  <-> Json.problems 0 (PyList (map PyDict tools_info)) = [].
Proof.
  unfold tools_serializable, Json.serializable.
  destruct (Json.problems 0 (PyList (map PyDict tools_info))); split;
    congruence.
Qed.


(** Encodable descriptors are encoded. *)
Lemma dumps_serializable (tools_info : dict_list) :
  tools_serializable tools_info = true ->
  exists tools_json,
    Json.dumps (PyList (map PyDict tools_info)) = Ok tools_json.
Proof.
  intros Hok. apply tools_serializable_problems in Hok.
  exact (first_problem_ok _ _
           (iterencode_first_problem (PyList (map PyDict tools_info)) 0) Hok).
Qed.

(** *** Every operation *)




End Totality.

(** The encoder on descriptors with a float, a tuple and a dictionary
    keyed by an integer and by [None]: the tuple is written as a list and
    the keys as strings. *)
Example dumps_rich_tools :
  Json.dumps (H := ascii_runtime) (PyList (map PyDict rich_tools))
  = Ok ("[" +:+ nl +:+
        "  {" +:+ nl +:+
        "    " +:+ dq +:+ "name" +:+ dq +:+ ": " +:+ dq +:+ "usaspending" +:+ dq +:+ "," +:+ nl +:+
        "    " +:+ dq +:+ "weight" +:+ dq +:+ ": 0.75," +:+ nl +:+
        "    " +:+ dq +:+ "domains" +:+ dq +:+ ": [" +:+ nl +:+
        "      " +:+ dq +:+ "gsa.gov" +:+ dq +:+ "," +:+ nl +:+
        "      " +:+ dq +:+ "sba.gov" +:+ dq +:+ nl +:+
        "    ]," +:+ nl +:+
        "    " +:+ dq +:+ "limits" +:+ dq +:+ ": {" +:+ nl +:+
        "      " +:+ dq +:+ "1" +:+ dq +:+ ": 10," +:+ nl +:+
        "      " +:+ dq +:+ "null" +:+ dq +:+ ": null" +:+ nl +:+
        "    }" +:+ nl +:+
        "  }" +:+ nl +:+
        "]").
Proof. vm_compute. reflexivity. Qed.




(** * Further properties of the module *)

(** ** More facts about strings and lists *)

Section MoreFacts.

Lemma nth_error_seq_from (start len i : nat) :
  nth_error (seq start len) i
  = if (i <? len)%nat then Some (start + i)%nat else None.
Proof.
  revert start i. induction len as [|len IH]; intros start [|i]; try reflexivity.
  - simpl. f_equal. lia.
  - simpl seq. simpl nth_error. rewrite IH.
    change (S i <? S len)%nat with (i <? len)%nat.
    destruct (i <? len)%nat; [f_equal; lia | reflexivity].
Qed.

End MoreFacts.

(** ** The example list of the base search-query prompt *)

(** X1.  The example list of the base search-query prompt has
    [max(0, max_iterations)] entries, numbered from 1 in order; a zero or
    negative [max_iterations] leaves the brackets empty.  The prompt ends
    with that list. *)
Theorem base_example_list
  (question parent_query report_type : string)
  (max_iterations : option Z) (context : option dict_list) :
  let m := default PromptFamily.default_max_iterations max_iterations in
  let items := PromptFamily.example_items m in
  Z.of_nat (length items) = Z.max 0 m
  /\ (forall i, nth_error items i
                = if (i <? Z.to_nat m)%nat then Some (base_example i) else None)
  /\ (exists before,
        PromptFamily.generate_search_queries_prompt
          question parent_query report_type max_iterations context
        = before +:+ "[" +:+ join ", " items +:+ "] only.").
Proof.
  intros m items. split; [|split].
  - unfold items, PromptFamily.example_items, py_range.
    rewrite !length_map, length_seq. lia.
  - intros i. unfold items, PromptFamily.example_items, py_range.
    rewrite !nth_error_map, nth_error_seq_from.
    destruct (i <? Z.to_nat m)%nat; reflexivity.
  - unfold PromptFamily.generate_search_queries_prompt.
    exists ("Write " +:+ str_of_int m +:+
            " web search queries to learn about: " +:+ dq +:+
            PromptFamily.task question parent_query +:+ dq +:+ "." +:+ nl +:+
            "Return a Python list → ").
    rewrite !append_assoc. reflexivity.
Qed.

(** ** More on the document formatter *)

Section FormatterMore.

Lemma doc_blocks_all (docs : list Document) :
  PromptFamily.doc_blocks docs None = map PromptFamily.doc_block docs.
Proof.
  rewrite doc_blocks_prefix. unfold shown_count. now rewrite firstn_all.
Qed.

Lemma doc_blocks_some (docs : list Document) (n : Z) :
  PromptFamily.doc_blocks docs (Some n)
  = map PromptFamily.doc_block (firstn (Z.to_nat n) docs).
Proof. rewrite doc_blocks_prefix. now rewrite <- firstn_shown. Qed.

(** For a bound of zero or more, [l[:stop]] is the first [stop] items. *)
Lemma slice_to_prefix {A} (l : list A) (stop : Z) :
  (0 <= stop)%Z -> slice_to l stop = firstn (Z.to_nat stop) l.
Proof.
  intros Hstop. unfold slice_to. destruct (Z.ltb_spec stop 0); [lia|].
  destruct (Z.le_gt_cases stop (Z.of_nat (length l))) as [Hle|Hgt].
  - now rewrite Z.min_l.
  - rewrite Z.min_r by lia. now rewrite !firstn_all2 by lia.
Qed.

End FormatterMore.

(** X2.  A [top_n] of zero or more is the same as formatting the slice
    [docs[:top_n]]; a negative [top_n] keeps no document, where the slice
    would drop only as many from the end.  Any [top_n] at or above the
    number of documents formats them all, the blocks of the whole list are
    the blocks kept followed by the blocks of the documents not kept, and
    an empty list gives the empty string. *)
Theorem pretty_print_docs_top_n_slices (docs : list Document) (n : Z) :
  (0 <= n ->
   PromptFamily.doc_blocks docs (Some n)
     = PromptFamily.doc_blocks (slice_to docs n) None
   /\ PromptFamily.pretty_print_docs docs (Some n)
      = PromptFamily.pretty_print_docs (slice_to docs n) None)%Z
  /\ (n < 0 ->
      PromptFamily.doc_blocks docs (Some n) = []
      /\ PromptFamily.pretty_print_docs docs (Some n) = EmptyString
      /\ length (slice_to docs n)
         = Z.to_nat (Z.of_nat (length docs) + n))%Z
  /\ PromptFamily.pretty_print_docs docs
       (Some (Z.max n (Z.of_nat (length docs))))
     = PromptFamily.pretty_print_docs docs None
  /\ PromptFamily.doc_blocks docs None
     = PromptFamily.doc_blocks docs (Some n)
       ++ PromptFamily.doc_blocks (skipn (Z.to_nat n) docs) None
  /\ PromptFamily.pretty_print_docs [] (Some n) = EmptyString.
Proof.
  split; [|split; [|split; [|split]]].
  - intros Hn.
    assert (Hslice : PromptFamily.doc_blocks docs (Some n)
                     = PromptFamily.doc_blocks (slice_to docs n) None).
    { rewrite doc_blocks_some, doc_blocks_all, (slice_to_prefix docs n Hn).
      reflexivity. }
    split; [exact Hslice|].
    unfold PromptFamily.pretty_print_docs. now rewrite Hslice.
  - intros Hn.
    assert (Hnone : PromptFamily.doc_blocks docs (Some n) = []).
    { rewrite doc_blocks_some.
      replace (Z.to_nat n) with 0%nat by lia. reflexivity. }
    split; [exact Hnone|]. split.
    + unfold PromptFamily.pretty_print_docs. now rewrite Hnone.
    + unfold slice_to. destruct (Z.ltb_spec n 0); [|lia].
      rewrite length_firstn. lia.
  - unfold PromptFamily.pretty_print_docs.
    rewrite doc_blocks_some, doc_blocks_all.
    now rewrite firstn_all2 by lia.
  - rewrite doc_blocks_some, !doc_blocks_all, <- map_app.
    now rewrite firstn_skipn.
  - unfold PromptFamily.pretty_print_docs. now rewrite doc_blocks_some, firstn_nil.
Qed.

(** X2 on two documents: [top_n = 1] formats the slice of one document,
    [top_n = -1] formats nothing although [docs[:-1]] holds a document. *)
Lemma pretty_print_docs_top_n_slices_witness :
  (0 <= 1)%Z
  /\ PromptFamily.pretty_print_docs [sample_doc; bare_doc] (Some 1%Z)
     = PromptFamily.pretty_print_docs (slice_to [sample_doc; bare_doc] 1) None
  /\ (-1 < 0)%Z
  /\ PromptFamily.pretty_print_docs [sample_doc; bare_doc] (Some (-1)%Z)
     = EmptyString
  /\ slice_to [sample_doc; bare_doc] (-1) = [sample_doc].
Proof.
  assert (Hpos : (0 <= 1)%Z) by lia.
  assert (Hneg : (-1 < 0)%Z) by lia.
  destruct (pretty_print_docs_top_n_slices [sample_doc; bare_doc] 1)
    as (Hslice & _).
  destruct (pretty_print_docs_top_n_slices [sample_doc; bare_doc] (-1))
    as (_ & Hnothing & _).
  split; [exact Hpos|]. split; [exact (proj2 (Hslice Hpos))|].
  split; [exact Hneg|]. split; [exact (proj1 (proj2 (Hnothing Hneg)))|].
  reflexivity.
Defined.

(** X3.  A block shows only the [source] and [title] entries of the
    metadata and the page text: adding, changing or deleting any other
    key leaves it unchanged, and a key bound to [None] is formatted like
    an absent key. *)
Theorem doc_block_ignores_other_metadata
  (m : gmap string scalar) (content key : string) (v : scalar) :
  key <> "source" -> key <> "title" ->
  PromptFamily.doc_block (mkDocument (<[key := v]> m) content)
    = PromptFamily.doc_block (mkDocument m content)
  /\ PromptFamily.doc_block (mkDocument (delete key m) content)
     = PromptFamily.doc_block (mkDocument m content)
  /\ PromptFamily.doc_block (mkDocument (<["source" := SNone]> m) content)
     = PromptFamily.doc_block (mkDocument (delete "source" m) content)
  /\ PromptFamily.doc_block (mkDocument (<["title" := SNone]> m) content)
     = PromptFamily.doc_block (mkDocument (delete "title" m) content).
Proof.
  intros Hsource Htitle.
  unfold PromptFamily.doc_block, metadata_get. simpl.
  repeat split.
  - now rewrite !lookup_insert_ne.
  - now rewrite !lookup_delete_ne.
  - rewrite lookup_insert_eq, lookup_delete_eq.
    rewrite lookup_insert_ne, lookup_delete_ne by discriminate. reflexivity.
  - rewrite lookup_insert_eq, lookup_delete_eq.
    rewrite lookup_insert_ne, lookup_delete_ne by discriminate. reflexivity.
Qed.

(** X3 on a document with an [author] entry. *)
Lemma doc_block_ignores_other_metadata_witness :
  "author" <> "source" /\ "author" <> "title"
  /\ PromptFamily.doc_block
       (mkDocument (<["author" := SStr "GSA"]> (metadata sample_doc)) "body")
     = PromptFamily.doc_block (mkDocument (metadata sample_doc) "body").
Proof.
  assert (Hsource : "author" <> "source") by discriminate.
  assert (Htitle : "author" <> "title") by discriminate.
  split; [exact Hsource|]. split; [exact Htitle|].
  exact (proj1 (doc_block_ignores_other_metadata (metadata sample_doc)
                  "body" "author" (SStr "GSA") Hsource Htitle)).
Defined.

(** ** More on the registries *)

Section RegistryMore.
Context {Config : Type}.

Lemma family_lookup (name : string) :
  prompt_family_mapping !! name
  = if String.eqb name "Default" then Some PromptFamily_class
    else if String.eqb name "FARPart10" then Some FARPart10PromptFamily_class
    else None.
Proof.
  destruct (String.eqb_spec name "Default") as [->|Hd]; [reflexivity|].
  destruct (String.eqb_spec name "FARPart10") as [->|Hf]; [reflexivity|].
  unfold prompt_family_mapping.
  rewrite lookup_insert_ne by congruence.
  now rewrite lookup_singleton_ne by congruence.
Qed.

Lemma report_method_name (report_type : string) :
  default "generate_report_prompt" (report_type_mapping !! report_type)
  = "generate_report_prompt".
Proof.
  unfold report_type_mapping.
  destruct (String.eqb_spec report_type "ResearchReport") as [->|Hne];
    [reflexivity|].
  now rewrite lookup_singleton_ne by congruence.
Qed.

End RegistryMore.

(** X4.  [get_prompt_family] stores the configuration it is given, which
    [getattr] reads back as [cfg]; it issues no warning exactly for the two
    registered names and never more than one; and it returns the FAR
    family exactly for the name ["FARPart10"], the base family for every
    other name. *)
Theorem get_prompt_family_registry {Config : Type}
  (name : string) (config : option Config) :
  cfg (fst (get_prompt_family name config)) = config
  /\ getattr (fst (get_prompt_family name config)) "cfg" = Ok (AttrCfg config)
  /\ (snd (get_prompt_family name config) = []
      <-> name = "Default" \/ name = "FARPart10")
  /\ (length (snd (get_prompt_family name config)) <= 1)%nat
  /\ (class_of (fst (get_prompt_family name config))
        = FARPart10PromptFamily_class
      <-> name = "FARPart10")
  /\ (class_of (fst (get_prompt_family name config)) = PromptFamily_class
      <-> name <> "FARPart10").
Proof.
  unfold get_prompt_family. rewrite family_lookup. simpl.
  destruct (String.eqb_spec name "Default") as [->|Hd];
    [|destruct (String.eqb_spec name "FARPart10") as [->|Hf]]; simpl;
    repeat split; try (intros; congruence); try lia; try tauto;
    try discriminate; intuition congruence.
Qed.

(** X5.  Whatever the family name and the report type, selecting the
    report operation of the instance the factory returns never raises: it
    yields the FAR report generator for the name ["FARPart10"] and the
    base report generator for every other name, independently of the
    report type. *)
Theorem selected_report_generator {Config : Type} `{PyRuntime} (today : date)
  (report_type name : string) (config : option Config) :
  get_prompt_by_report_type report_type (fst (get_prompt_family name config))
  = Ok (AttrFunction
          (if String.eqb name "FARPart10" then fn_far_report
           else fn_base_report))
  /\ as_report_generator today
       (if String.eqb name "FARPart10" then fn_far_report else fn_base_report)
     = Some (if String.eqb name "FARPart10"
             then FARPart10PromptFamily.generate_report_prompt today
             else PromptFamily.generate_report_prompt).
Proof.
  split.
  - unfold get_prompt_by_report_type. rewrite report_method_name.
    rewrite getattr_report. unfold get_prompt_family.
    rewrite family_lookup. simpl.
    destruct (String.eqb_spec name "Default") as [->|Hd]; [reflexivity|].
    destruct (String.eqb name "FARPart10"); reflexivity.
  - destruct (String.eqb name "FARPart10"); reflexivity.
Qed.

(** X4 on the registered name [Default] and on an unknown name. *)
Lemma get_prompt_family_registry_witness :
  ("Default" = "Default" \/ "Default" = "FARPart10")
  /\ snd (@get_prompt_family unit "Default" None) = []
  /\ "Legacy" <> "FARPart10"
  /\ class_of (fst (@get_prompt_family unit "Legacy" None)) = PromptFamily_class.
Proof.
  assert (Hreg : "Default" = "Default" \/ "Default" = "FARPart10")
    by (left; reflexivity).
  assert (Hne : "Legacy" <> "FARPart10") by discriminate.
  split; [exact Hreg|]. split.
  - destruct (get_prompt_family_registry (Config := unit) "Default" None)
      as (_ & _ & [_ Hquiet] & _).
    exact (Hquiet Hreg).
  - split; [exact Hne|].
    destruct (get_prompt_family_registry (Config := unit) "Legacy" None)
      as (_ & _ & _ & _ & _ & [_ Hbase]).
    exact (Hbase Hne).
Defined.

(** ** More on the tool-selection prompt *)

(** X6.  When the tool descriptors can be encoded, the tool-selection
    prompt holds, in this order, the FAR preference sentence, the query
    verbatim between double quotes, the JSON text of [tools_info] on its
    own lines and the request for exactly [max_tools] tools, 3 when
    [max_tools] is omitted. *)
Theorem tool_selection_contents `{PyRuntime}
  (query : string) (tools_info : dict_list) (max_tools : option Z) :
  tools_serializable tools_info = true ->
  exists tools_json before,
    Json.dumps (PyList (map PyDict tools_info)) = Ok tools_json
    /\ FARPart10PromptFamily.generate_mcp_tool_selection_prompt
         query tools_info max_tools
       = Ok (before +:+ FARPart10PromptFamily.far_lang +:+ nl +:+ nl +:+
             "RESEARCH QUERY: " +:+ dq +:+ query +:+ dq +:+ nl +:+ nl +:+
             "AVAILABLE TOOLS:" +:+ nl +:+ tools_json +:+ nl +:+ nl +:+
             "Select EXACTLY " +:+
             str_of_int (default 3 max_tools) +:+
             " tools best suited to gather competitive sourcing information.  Return the JSON object described below.").
Proof.
  intros Hok. destruct (dumps_serializable tools_info Hok) as [json Hjson].
  unfold FARPart10PromptFamily.generate_mcp_tool_selection_prompt.
  rewrite Hjson. simpl.
  eexists. eexists. split; [reflexivity|]. reflexivity.
Qed.

(** X6 on one tool descriptor and the default [max_tools]. *)
Lemma tool_selection_contents_witness :
  tools_serializable (H := ascii_runtime) sample_tools = true
  /\ exists tools_json before,
       Json.dumps (H := ascii_runtime) (PyList (map PyDict sample_tools))
       = Ok tools_json
       /\ FARPart10PromptFamily.generate_mcp_tool_selection_prompt
            (H := ascii_runtime) "laptops" sample_tools None
          = Ok (before +:+ FARPart10PromptFamily.far_lang +:+ nl +:+ nl +:+
                "RESEARCH QUERY: " +:+ dq +:+ "laptops" +:+ dq +:+ nl +:+ nl +:+
                "AVAILABLE TOOLS:" +:+ nl +:+ tools_json +:+ nl +:+ nl +:+
                "Select EXACTLY " +:+
                str_of_int (default 3 None) +:+
                " tools best suited to gather competitive sourcing information.  Return the JSON object described below.").
Proof.
  split; [reflexivity|].
  exact (tool_selection_contents (H := ascii_runtime)
           "laptops" sample_tools None eq_refl).
Defined.


(** ** More on the report prompts *)

Section ReportsMore.
Context `{PyRuntime}.

Lemma base_tone_clause_given (t : string) :
  t <> EmptyString ->
  PromptFamily.tone_clause (Some t) = "Write in a " +:+ t +:+ " tone.".
Proof. destruct t; [congruence | reflexivity]. Qed.

Lemma far_tone_clause_given (t : string) :
  t <> EmptyString ->
  FARPart10PromptFamily.tone_clause (Some t) = "Write in a " +:+ t +:+ " tone.".
Proof. destruct t; [congruence | reflexivity]. Qed.

Lemma directive_not_empty (rest : string) :
  FARPart10PromptFamily.contract_numbers_directive +:+ rest <> rest.
Proof.
  intros Heq. apply (f_equal String.length) in Heq.
  rewrite length_append in Heq. simpl in Heq. lia.
Qed.

End ReportsMore.

(** X8.  The FAR report prompt looks at [report_source] only to compare
    it with ["web"]: any two other values give the same prompt, and that
    prompt is never the one produced for ["web"]. *)
Theorem far_report_source_only_web `{PyRuntime} (today : date)
  (question context source1 source2 : string)
  (report_format : option string) (total_words : option Z)
  (tone : option (option string)) (language : option string) :
  source1 <> "web" -> source2 <> "web" ->
  FARPart10PromptFamily.generate_report_prompt today
    question context source1 report_format total_words tone language
  = FARPart10PromptFamily.generate_report_prompt today
      question context source2 report_format total_words tone language
  /\ FARPart10PromptFamily.generate_report_prompt today
       question context "web" report_format total_words tone language
     <> FARPart10PromptFamily.generate_report_prompt today
          question context source1 report_format total_words tone language.
Proof.
  intros Hne1 Hne2.
  unfold FARPart10PromptFamily.generate_report_prompt.
  rewrite (source_clause_other source1 Hne1), (source_clause_other source2 Hne2).
  split; [reflexivity|].
  rewrite source_clause_web. intros Heq.
  repeat (apply append_inv_head in Heq).
  rewrite append_nil_l in Heq.
  exact (directive_not_empty _ Heq).
Qed.

(** X8 on the sources [local] and [hybrid]. *)
Lemma far_report_source_only_web_witness :
  "local" <> "web" /\ "hybrid" <> "web"
  /\ FARPart10PromptFamily.generate_report_prompt (H := ascii_runtime)
       sample_date "Who sells laptops?" "Vendor list" "local"
       None None None None
     = FARPart10PromptFamily.generate_report_prompt (H := ascii_runtime)
         sample_date "Who sells laptops?" "Vendor list" "hybrid"
         None None None None.
Proof.
  assert (Hlocal : "local" <> "web") by discriminate.
  assert (Hhybrid : "hybrid" <> "web") by discriminate.
  split; [exact Hlocal|]. split; [exact Hhybrid|].
  exact (proj1 (far_report_source_only_web (H := ascii_runtime)
                  sample_date "Who sells laptops?" "Vendor list"
                  "local" "hybrid" None None None None Hlocal Hhybrid)).
Defined.

(** X9.  A non-empty [tone] appears in both report prompts as
    [Write in a <tone> tone.].  When [tone] is omitted the FAR prompt asks
    for an objective tone, and passing [None] or the empty string as
    [tone] removes the clause from the FAR prompt. *)
Theorem report_tone_given `{PyRuntime} (today : date)
  (question context report_source tone : string)
  (report_format : option string) (total_words : option Z)
  (language : option string) :
  tone <> EmptyString ->
  contains ("Write in a " +:+ tone +:+ " tone.")
    (PromptFamily.generate_report_prompt
       question context report_source report_format total_words
       (Some (Some tone)) language)
  /\ contains ("Write in a " +:+ tone +:+ " tone.")
       (FARPart10PromptFamily.generate_report_prompt today
          question context report_source report_format total_words
          (Some (Some tone)) language)
  /\ contains "Write in a objective tone."
       (FARPart10PromptFamily.generate_report_prompt today
          question context report_source report_format total_words
          None language)
  /\ FARPart10PromptFamily.generate_report_prompt today
       question context report_source report_format total_words
       (Some None) language
     = FARPart10PromptFamily.generate_report_prompt today
         question context report_source report_format total_words
         (Some (Some EmptyString)) language
  /\ FARPart10PromptFamily.tone_clause
       (default FARPart10PromptFamily.default_tone (Some None)) = EmptyString.
Proof.
  intros Hne. split; [|split; [|split; [|split]]].
  - rewrite <- (base_tone_clause_given tone Hne).
    unfold PromptFamily.generate_report_prompt. contains_chain.
  - rewrite <- (far_tone_clause_given tone Hne).
    unfold FARPart10PromptFamily.generate_report_prompt. contains_chain.
  - unfold FARPart10PromptFamily.generate_report_prompt. contains_chain.
  - reflexivity.
  - reflexivity.
Qed.

(** X9 on the tone [persuasive]. *)
Lemma report_tone_given_witness :
  "persuasive" <> EmptyString
  /\ contains "Write in a persuasive tone."
       (FARPart10PromptFamily.generate_report_prompt (H := ascii_runtime)
          sample_date "Who sells laptops?" "Vendor list" "web"
          None None (Some (Some "persuasive")) None).
Proof.
  assert (Hne : "persuasive" <> EmptyString) by discriminate.
  split; [exact Hne|].
  destruct (report_tone_given (H := ascii_runtime) sample_date
              "Who sells laptops?" "Vendor list" "web" "persuasive"
              None None None Hne) as (_ & Hfar & _).
  exact Hfar.
Defined.

(** ** More on the search-query prompts *)

Section SearchMore.

Lemma task_regroup (a b c : string) :
  a <> EmptyString ->
  PromptFamily.task (b +:+ " - " +:+ c) a
  = PromptFamily.task c (a +:+ " - " +:+ b).
Proof.
  intros Hne. destruct a as [|x a]; [congruence|].
  unfold PromptFamily.task.
  change (String x a +:+ " - " +:+ b) with (String x (a +:+ " - " +:+ b)).
  cbn [str_truthy]. rewrite !append_cons. f_equal.
  now rewrite !append_assoc.
Qed.

Lemma far_task_regroup (a b c : string) :
  a <> EmptyString ->
  FARPart10PromptFamily.task (b +:+ " - " +:+ c) a
  = FARPart10PromptFamily.task c (a +:+ " - " +:+ b).
Proof. exact (task_regroup a b c). Qed.

Lemma task_injective (q1 q2 parent_query : string) :
  PromptFamily.task q1 parent_query = PromptFamily.task q2 parent_query ->
  q1 = q2.
Proof.
  unfold PromptFamily.task. destruct (str_truthy parent_query); [|trivial].
  intros Heq. now do 2 apply append_inv_head in Heq.
Qed.

End SearchMore.

(** X10.  The task keeps no trace of where the parent query ends: moving
    a leading part of the question, with its [" - "], to the end of a
    non-empty parent query gives the same search-query prompt, in both
    families. *)
Theorem task_boundary_not_kept
  (a b c report_type : string)
  (max_iterations : option Z) (context : option dict_list) :
  a <> EmptyString ->
  PromptFamily.generate_search_queries_prompt
    (b +:+ " - " +:+ c) a report_type max_iterations context
  = PromptFamily.generate_search_queries_prompt
      c (a +:+ " - " +:+ b) report_type max_iterations context
  /\ FARPart10PromptFamily.generate_search_queries_prompt
       (b +:+ " - " +:+ c) a report_type max_iterations context
     = FARPart10PromptFamily.generate_search_queries_prompt
         c (a +:+ " - " +:+ b) report_type max_iterations context.
Proof.
  intros Hne.
  unfold PromptFamily.generate_search_queries_prompt,
    FARPart10PromptFamily.generate_search_queries_prompt.
  rewrite (task_regroup a b c Hne), (far_task_regroup a b c Hne).
  split; reflexivity.
Qed.

(** X10 on the parent query [GSA] and the question [laptops - prices]. *)
Lemma task_boundary_not_kept_witness :
  "GSA" <> EmptyString
  /\ PromptFamily.generate_search_queries_prompt
       "laptops - prices" "GSA" "ResearchReport" None None
     = PromptFamily.generate_search_queries_prompt
         "prices" "GSA - laptops" "ResearchReport" None None.
Proof.
  assert (Hne : "GSA" <> EmptyString) by discriminate.
  split; [exact Hne|].
  exact (proj1 (task_boundary_not_kept "GSA" "laptops" "prices"
                  "ResearchReport" None None Hne)).
Defined.

(** X11.  For a fixed parent query and a fixed [max_iterations], the base
    search-query prompt tells questions apart: two different questions
    never give the same prompt, whatever the report types and contexts. *)
Theorem base_search_queries_distinguish
  (question1 question2 parent_query report_type1 report_type2 : string)
  (max_iterations : option Z) (context1 context2 : option dict_list) :
  question1 <> question2 ->
  PromptFamily.generate_search_queries_prompt
    question1 parent_query report_type1 max_iterations context1
  <> PromptFamily.generate_search_queries_prompt
       question2 parent_query report_type2 max_iterations context2.
Proof.
  intros Hne Heq. apply Hne.
  unfold PromptFamily.generate_search_queries_prompt in Heq.
  do 4 apply append_inv_head in Heq.
  apply append_inv_tail in Heq.
  exact (task_injective _ _ _ Heq).
Qed.

(** X11 on the questions [laptops] and [printers]. *)
Lemma base_search_queries_distinguish_witness :
  "laptops" <> "printers"
  /\ PromptFamily.generate_search_queries_prompt
       "laptops" "GSA" "ResearchReport" None None
     <> PromptFamily.generate_search_queries_prompt
          "printers" "GSA" "ResearchReport" None None.
Proof.
  assert (Hne : "laptops" <> "printers") by discriminate.
  split; [exact Hne|].
  exact (base_search_queries_distinguish "laptops" "printers" "GSA"
           "ResearchReport" "ResearchReport" None None None Hne).
Defined.

(** ** Inheritance *)

(** X13.  Every attribute an instance of the base family has, an instance
    of the FAR family has too; when the FAR class body does not define
    the name, a function found on the base instance is the very function
    found on the FAR instance. *)
Theorem far_family_inherits {Config : Type}
  (config1 config2 : option Config) (name : string) (a : attribute Config) :
  getattr (mkFamily PromptFamily_class config1) name = Ok a ->
  exists a',
    getattr (mkFamily FARPart10PromptFamily_class config2) name = Ok a'
    /\ (class_dict FARPart10PromptFamily_class !! name = None ->
        forall f, a = AttrFunction f -> a' = AttrFunction f).
Proof.
  unfold getattr. destruct (String.eqb name "cfg").
  - intros Ha. injection Ha as <-. eexists. split; [reflexivity|].
    intros _ f Hf. discriminate.
  - cbn [mro lookup_mro class_of].
    destruct (class_dict FARPart10PromptFamily_class !! name) as [m'|] eqn:Hfar.
    + intros _. destruct m'; eexists; (split; [reflexivity | discriminate]).
    + destruct (class_dict PromptFamily_class !! name) as [m|]; [|discriminate].
      destruct m; intros Ha; injection Ha as <-; eexists;
        (split; [reflexivity|]); intros _ f' Hf; try discriminate.
      exact Hf.
Qed.

(** X13 on the inherited formatter. *)
Lemma far_family_inherits_witness :
  getattr (mkFamily (Config := unit) PromptFamily_class None)
    "pretty_print_docs"
  = Ok (AttrFunction fn_pretty_print_docs)
  /\ exists a',
       getattr (mkFamily (Config := unit) FARPart10PromptFamily_class None)
         "pretty_print_docs" = Ok a'
       /\ (class_dict FARPart10PromptFamily_class !! "pretty_print_docs" = None ->
           forall f, AttrFunction (Config := unit) fn_pretty_print_docs
                     = AttrFunction f ->
                     a' = AttrFunction f).
Proof.
  split; [reflexivity|].
  exact (far_family_inherits (Config := unit) None None "pretty_print_docs"
           (AttrFunction fn_pretty_print_docs) eq_refl).
Defined.
